(** * topnews-redirect: the Cloudflare worker [worker.js], embedded and verified

    The worker answers ordinary visitors with a 301 redirect and Facebook
    crawlers with an Open Graph HTML page whose title and image come from a
    KV cache, a primary API or a backup CDN.

    Conventions of the embedding:
    - a JavaScript string is a [string] of bytes (the UTF-8 text); every
      character the worker inspects ([-], [&], [<], [>], the two quotes,
      letters and digits) is ASCII, so positions of multi-byte characters
      never matter;
    - a value that comes out of [JSON.parse] (KV read, response body) is a
      [JsValue]; property access, truthiness, optional chaining and
      [String(...)] follow ECMAScript on those values;
    - built-ins whose exact result no statement depends on
      ([toLowerCase], [trim], [JSON.stringify]) are fields of [JsRuntime];
    - [console.log] has no effect that any statement below observes and is
      left out;
    - the asynchronous calls are awaited one after the other in the source,
      so a run is a function of the timers armed before it that gives the
      timers armed after it, the I/O calls it made in order, and a
      completion that is either a value or a thrown error. *)

From Stdlib Require Import ZArith Ascii String Bool List Lia.
From stdpp Require Import base option gmap strings list.

Open Scope string_scope.

(** ** Text helpers (the String.prototype methods the worker calls) *)

(** The double quote character. *)
Definition dq : ascii := "034"%char.

(** Template text is written with ['] where the source has a double quote. *)
Fixpoint tpl (s : string) : string :=
  match s with
  | EmptyString => EmptyString
  | String c s' => String (if Ascii.eqb c "'" then dq else c) (tpl s')
  end.

(** [strip_prefix m s]: the rest of [s] after its prefix [m], if [m] is one. *)
Fixpoint strip_prefix (m s : string) : option string :=
  match m, s with
  | EmptyString, _ => Some s
  | String a m', String b s' => if Ascii.eqb a b then strip_prefix m' s' else None
  | String _ _, EmptyString => None
  end.

Definition starts_with (m s : string) : bool :=
  match strip_prefix m s with Some _ => true | None => false end.

(** [s.includes(sub)] *)
Fixpoint includes (s sub : string) : bool :=
  starts_with sub s ||
  match s with
  | EmptyString => false
  | String _ s' => includes s' sub
  end.

(** [s.lastIndexOf(c)] for a one-character needle: scan left to right and
    remember the last match; [-1] when there is none. *)
Fixpoint lastIndexOf_from (c : ascii) (s : string) (i acc : Z) : Z :=
  match s with
  | EmptyString => acc
  | String a s' => lastIndexOf_from c s' (i + 1) (if Ascii.eqb a c then i else acc)
  end.

Definition lastIndexOf (s : string) (c : ascii) : Z := lastIndexOf_from c s 0 (-1).

Fixpoint drop_chars (n : nat) (s : string) : string :=
  match n, s with
  | O, _ => s
  | S _, EmptyString => EmptyString
  | S n', String _ s' => drop_chars n' s'
  end.

(** [s.slice(start)]: a negative start counts from the end. *)
Definition slice (s : string) (start : Z) : string :=
  let len := Z.of_nat (String.length s) in
  let from := if (start <? 0)%Z then Z.max (len + start) 0 else Z.min start len in
  drop_chars (Z.to_nat from) s.

(** One character of the class [[a-zA-Z0-9]]. *)
Definition is_alnum (c : ascii) : bool :=
  let n := N_of_ascii c in
  ((97 <=? n) && (n <=? 122) || (65 <=? n) && (n <=? 90) || (48 <=? n) && (n <=? 57))%N.

Fixpoint all_alnum (s : string) : bool :=
  match s with
  | EmptyString => true
  | String c s' => is_alnum c && all_alnum s'
  end.

(** [/^[a-zA-Z0-9]+$/.test(s)] *)
Definition test_alnum (s : string) : bool :=
  match s with
  | EmptyString => false
  | String _ _ => all_alnum s
  end.

(** [s.replace(/c/g, r)] for a one-character pattern. *)
Fixpoint replace_all (c : ascii) (r : string) (s : string) : string :=
  match s with
  | EmptyString => EmptyString
  | String a s' =>
      if Ascii.eqb a c then r +:+ replace_all c r s' else String a (replace_all c r s')
  end.

(** ** JavaScript values and completions *)

(** A value produced by [JSON.parse], plus [undefined] (a missing property).
    A number is carried by its canonical decimal text (what [String(n)]
    gives), which identifies it up to the sign of zero. *)
#[warning="-register-all"]
Inductive JsValue : Type :=
  | JUndefined
  | JNull
  | JBool (b : bool)
  | JNumber (text : string)
  | JString (s : string)
  | JArray (items : list JsValue)
  | JObject (fields : list (string * JsValue)).

Inductive JsError : Type :=
  | TypeError
  | AbortError
  | NetworkError
  | SyntaxError
  | KvError.

(** How an expression completes: with a value, or by throwing. *)
Inductive Outcome (A : Type) : Type :=
  | Returns (a : A)
  | Throws (e : JsError).
Arguments Returns {A} a.
Arguments Throws {A} e.

Definition obind {A B} (m : Outcome A) (k : A -> Outcome B) : Outcome B :=
  match m with
  | Returns a => k a
  | Throws e => Throws e
  end.

Declare Scope outcome_scope.
Delimit Scope outcome_scope with outcome.
Notation "x <~ m ;; k" := (obind m (fun x => k))
  (at level 100, m at next level, k at level 200, right associativity) : outcome_scope.

(** ToBoolean *)
Definition truthy (v : JsValue) : bool :=
  match v with
  | JUndefined | JNull => false
  | JBool b => b
  | JNumber t => negb (String.eqb t "0" || String.eqb t "NaN")
  | JString s => negb (String.eqb s "")
  | JArray _ | JObject _ => true
  end.

Definition nullish (v : JsValue) : bool :=
  match v with
  | JUndefined | JNull => true
  | _ => false
  end.

Fixpoint lookup_field (k : string) (fields : list (string * JsValue)) : option JsValue :=
  match fields with
  | [] => None
  | (k', v) :: rest => if String.eqb k' k then Some v else lookup_field k rest
  end.

(** [v.k] for the keys the worker reads ([data], [name], [avatarLink]):
    none of them is a member of a prototype, so only an object can hold
    them; reading a property of [null] or [undefined] throws. *)
Definition get_prop (v : JsValue) (k : string) : Outcome JsValue :=
  match v with
  | JUndefined | JNull => Throws TypeError
  | JObject fields => Returns (default JUndefined (lookup_field k fields))
  | _ => Returns JUndefined
  end.

(** [v?.k] *)
Definition opt_get (v : JsValue) (k : string) : Outcome JsValue :=
  if nullish v then Returns JUndefined else get_prop v k.

(** [String(v)]. An array joins its items with commas ([null] and
    [undefined] items give the empty text). A plain object gives
    [[object Object]], unless it has an own member [toString]: a parsed
    member is never callable, [valueOf] hands back the object itself, and
    the conversion throws a TypeError (OrdinaryToPrimitive). *)
Fixpoint to_string (v : JsValue) : Outcome string :=
  match v with
  | JUndefined => Returns "undefined"
  | JNull => Returns "null"
  | JBool true => Returns "true"
  | JBool false => Returns "false"
  | JNumber t => Returns t
  | JString s => Returns s
  | JArray items =>
      (fix join (l : list JsValue) : Outcome string :=
         match l with
         | [] => Returns ""
         | x :: rest =>
             obind (if nullish x then Returns "" else to_string x) (fun sx =>
             match rest with
             | [] => Returns sx
             | _ :: _ => obind (join rest) (fun sr => Returns (sx +:+ "," +:+ sr))
             end)
         end) items
  | JObject fields =>
      match lookup_field "toString" fields with
      | Some _ => Throws TypeError
      | None => Returns "[object Object]"
      end
  end.

(** ** The platform *)

(** Built-ins of the runtime that the worker calls and whose result is
    only passed on. *)
Class JsRuntime := {
  toLowerCase : string -> string;
  trim : string -> string;
  JSON_stringify : JsValue -> string
}.

(** [s.trim()] is a method of strings only: on any other non-nullish value
    the member is missing (or, for a parsed object, not callable). *)
Definition call_trim `{JsRuntime} (v : JsValue) : Outcome string :=
  match v with
  | JString s => Returns (trim s)
  | _ => Throws TypeError
  end.

(** [v?.trim()] *)
Definition opt_call_trim `{JsRuntime} (v : JsValue) : Outcome JsValue :=
  if nullish v then Returns JUndefined
  else obind (call_trim v) (fun s => Returns (JString s)).

(** An HTTP response as the worker sees it: the status and what
    [response.json()] settles to. *)
Inductive JsonBody : Type :=
  | Parsed (v : JsValue)
  | Malformed.

Record HttpResponse := {
  resp_status : Z;
  resp_json : JsonBody
}.

(** [response.ok] *)
Definition resp_ok (r : HttpResponse) : bool :=
  ((200 <=? resp_status r) && (resp_status r <=? 299))%Z.

Inductive FetchSettle : Type :=
  | Resolves (r : HttpResponse)
  | Rejects.

(** What the network does with one request: after [latency] milliseconds
    the fetch resolves or rejects. Every request settles (the platform
    bounds a request that the worker does not bound itself). *)
Record FetchBehaviour := {
  latency : Z;
  settles : FetchSettle
}.

Inductive KvRead : Type :=
  | KvJson (v : JsValue)   (* the parsed value, [JNull] when the key is absent *)
  | KvReadFails.

(** The KV namespace bound as [env.META_CACHE]. *)
Record KVNamespace := {
  kv_get : string -> KvRead;
  kv_put_fails : string -> string -> Z -> bool
}.

Record Env := {
  META_CACHE : option KVNamespace;
  net : string -> FetchBehaviour
}.

Record Request := {
  url_hostname : string;
  url_pathname : string;
  url_search : string;
  user_agent : option string
}.

Record Response := {
  status : Z;
  headers : list (string * string);
  body : string
}.

(** ** Runs: timers, emitted events, completion *)

Inductive Event : Type :=
  | EvKvGet (key : string)
  | EvKvPut (key value : string) (ttl : Z)
  | EvFetch (url : string).

(** [armed] maps each armed timer to its delay; a timer leaves the map
    when it fires or is cleared. *)
Record Timers := {
  armed : gmap nat Z;
  next_timer : nat
}.

(** A fresh invocation: no timer armed. *)
Definition idle : Timers := {| armed := ∅; next_timer := 0 |}.

(** What a run leaves behind: the timers after it, the I/O calls it made
    in order, and how it completed. *)
Record Run (A : Type) := {
  after : Timers;
  events : list Event;
  completion : Outcome A
}.
Arguments after {A} r.
Arguments events {A} r.
Arguments completion {A} r.

Definition M (A : Type) : Type := Timers -> Run A.

Definition ret {A} (a : A) : M A :=
  fun t => {| after := t; events := []; completion := Returns a |}.

Definition lift {A} (o : Outcome A) : M A :=
  fun t => {| after := t; events := []; completion := o |}.

Definition bind {A B} (m : M A) (k : A -> M B) : M B :=
  fun t =>
    let r := m t in
    match completion r with
    | Returns a =>
        let r' := k a (after r) in
        {| after := after r'; events := events r ++ events r';
           completion := completion r' |}
    | Throws e => {| after := after r; events := events r; completion := Throws e |}
    end.

(** [try { m } catch (e) { h e }] *)
Definition try_catch {A} (m : M A) (h : JsError -> M A) : M A :=
  fun t =>
    let r := m t in
    match completion r with
    | Returns a => r
    | Throws e =>
        let r' := h e (after r) in
        {| after := after r'; events := events r ++ events r';
           completion := completion r' |}
    end.

Declare Scope run_scope.
Delimit Scope run_scope with run.
Notation "x <- m ;; k" := (bind m (fun x => k))
  (at level 100, m at next level, k at level 200, right associativity) : run_scope.
Notation "m ;;; k" := (bind m (fun _ => k))
  (at level 100, k at level 200, right associativity) : run_scope.

Definition emit (e : Event) : M unit :=
  fun t => {| after := t; events := [e]; completion := Returns tt |}.

(** [setTimeout(callback, delay)] *)
Definition set_timeout (delay : Z) : M nat :=
  fun t =>
    let id := next_timer t in
    {| after := {| armed := <[id := delay]> (armed t); next_timer := S id |};
       events := [];
       completion := Returns id |}.

(** [clearTimeout(id)] *)
Definition clear_timeout (id : nat) : M unit :=
  fun t =>
    {| after := {| armed := delete id (armed t); next_timer := next_timer t |};
       events := [];
       completion := Returns tt |}.

(** [await fetch(url, { signal })]: when the signal belongs to a timer that
    is armed and whose delay elapses before the request settles, the timer
    fires, its callback aborts the request and the fetch rejects. *)
Definition net_fetch (env : Env) (url : string) (signal : option nat) : M HttpResponse :=
  fun t =>
    let b := net env url in
    let settle :=
      {| after := t; events := [EvFetch url];
         completion := match settles b with
                       | Resolves r => Returns r
                       | Rejects => Throws NetworkError
                       end |} in
    match signal with
    | Some id =>
        match armed t !! id with
        | Some delay =>
            if (delay <=? latency b)%Z
            then {| after := {| armed := delete id (armed t);
                                next_timer := next_timer t |};
                    events := [EvFetch url];
                    completion := Throws AbortError |}
            else settle
        | None => settle
        end
    | None => settle
    end.

(** [await response.json()] *)
Definition response_json (r : HttpResponse) : M JsValue :=
  match resp_json r with
  | Parsed v => ret v
  | Malformed => lift (Throws SyntaxError)
  end.

(** [await env.META_CACHE.get(key, 'json')] *)
Definition kv_get_json (kv : KVNamespace) (key : string) : M JsValue :=
  bind (emit (EvKvGet key)) (fun _ =>
  match kv_get kv key with
  | KvJson v => ret v
  | KvReadFails => lift (Throws KvError)
  end).

(** [await env.META_CACHE.put(key, value, { expirationTtl })] *)
Definition kv_put_text (kv : KVNamespace) (key value : string) (ttl : Z) : M unit :=
  bind (emit (EvKvPut key value ttl)) (fun _ =>
  if kv_put_fails kv key value ttl then lift (Throws KvError) else ret tt).

(** ** Configuration tables of the worker *)

(** The own properties of the object literal [DOMAIN_MAP]. *)
Definition DOMAIN_MAP : gmap string string :=
  list_to_map
    [ ("topnews-redirect.takhanhthient3.workers.dev", "https://topnewsus.feji.io");
      ("tuneblast.us", "https://anhus.livextop.com") ].

Definition DEFAULT_REDIRECT : string := "https://topnewsus.feji.io".

(** What an object literal inherits from [Object.prototype]: a lookup
    [DOMAIN_MAP[key]] that finds no own property finds these. Each member
    is a function, or for [__proto__] the prototype itself, so each is
    truthy; it is kept here as the text a template literal makes of it
    (native functions as V8 prints them). *)
Definition Object_prototype : gmap string string :=
  list_to_map
    [ ("constructor", "function Object() { [native code] }");
      ("__proto__", "[object Object]");
      ("toString", "function toString() { [native code] }");
      ("toLocaleString", "function toLocaleString() { [native code] }");
      ("valueOf", "function valueOf() { [native code] }");
      ("hasOwnProperty", "function hasOwnProperty() { [native code] }");
      ("isPrototypeOf", "function isPrototypeOf() { [native code] }");
      ("propertyIsEnumerable", "function propertyIsEnumerable() { [native code] }");
      ("__defineGetter__", "function __defineGetter__() { [native code] }");
      ("__defineSetter__", "function __defineSetter__() { [native code] }");
      ("__lookupGetter__", "function __lookupGetter__() { [native code] }");
      ("__lookupSetter__", "function __lookupSetter__() { [native code] }") ].

Record Config := {
  API_URL : string;
  BACKUP_URL : string;
  API_TIMEOUT : Z;
  CACHE_TTL : Z
}.

Definition CONFIG : Config := {|
  API_URL := "https://apisport.vbonews.com/News/news-detailbasic";
  BACKUP_URL := "https://file.lifenews247.com/sportnews/backup";
  API_TIMEOUT := 3000;
  CACHE_TTL := 86400
|}.

(** The record [{ name, avatarLink }] built by [fetchMetaData]: the name is
    the result of [trim] (or the literal ['']), the avatar link is whatever
    the source sent, when truthy. *)
Record MetaData := {
  name : string;
  avatarLink : JsValue
}.

Definition MetaData_object (m : MetaData) : JsValue :=
  JObject [("name", JString (name m)); ("avatarLink", avatarLink m)].

(** ** The worker *)

(** [isFacebookCrawler] *)
Definition isFacebookCrawler (userAgent : string) : bool :=
  includes userAgent "facebook" ||
  includes userAgent "facebookexternalhit" ||
  includes userAgent "facebot".

(** [extractId]: [None] is the source's [null]. *)
Definition extractId (slug : string) : option string :=
  if String.eqb slug "" then None
  else
    let lastDash := lastIndexOf slug "-" in
    if (lastDash =? -1)%Z then Some slug
    else
      let id := slice slug (lastDash + 1) in
      if test_alnum id then Some id else None.

(** The five replacements of [escapeHtml], in the source's order. *)
Definition escape_text (s : string) : string :=
  replace_all "'" "&#39;"
    (replace_all dq "&quot;"
      (replace_all ">" "&gt;"
        (replace_all "<" "&lt;"
          (replace_all "&" "&amp;" s)))).

(** [escapeHtml] *)
Definition escapeHtml (str : JsValue) : Outcome string :=
  if negb (truthy str) then Returns ""
  else obind (to_string str) (fun s => Returns (escape_text s)).

(** The template literal of [createMetaResponse], cut at its four holes. *)
Definition html_head : string := tpl
"<!DOCTYPE html>
<html lang='vi'>
<head>
  <meta charset='UTF-8'>
  <meta name='viewport' content='width=device-width, initial-scale=1.0'>
  <title>".

Definition html_to_og_title : string := tpl
"</title>
  <meta property='og:title' content='".

Definition html_to_og_description : string := tpl
"' />
  <meta property='og:description' content='".

Definition html_to_og_image : string := tpl
"' />
  <meta property='og:image' content='".

Definition html_tail : string := tpl
"' />
  <meta property='og:type' content='article' />
  <meta property='fb:app_id' content='' />
</head>
<body></body>
</html>".

Definition html_document (safeName safeImage : string) : string :=
  html_head +:+ safeName +:+
  html_to_og_title +:+ safeName +:+
  html_to_og_description +:+ safeName +:+
  html_to_og_image +:+ safeImage +:+
  html_tail.

Definition meta_headers : list (string * string) :=
  [ ("Content-Type", "text/html;charset=UTF-8");
    ("Cache-Control", "public, max-age=86400, s-maxage=86400");
    ("X-Robots-Tag", "noindex, nofollow") ].

(** [createMetaResponse] *)
Definition createMetaResponse (name avatarLink : JsValue) : Outcome Response :=
  obind (escapeHtml name) (fun safeName =>
  obind (escapeHtml avatarLink) (fun safeImage =>
  Returns {| status := 200;
             headers := meta_headers;
             body := html_document safeName safeImage |})).

(** One character of a URL scheme after its first letter. *)
Definition scheme_char (c : ascii) : bool :=
  is_alnum c || Ascii.eqb c "+" || Ascii.eqb c "-" || Ascii.eqb c ".".

Definition is_alpha (c : ascii) : bool :=
  let n := N_of_ascii c in
  ((97 <=? n) && (n <=? 122) || (65 <=? n) && (n <=? 90))%N.

(** Scheme characters up to a colon. *)
Fixpoint scheme_rest (s : string) : bool :=
  match s with
  | EmptyString => false
  | String c s' =>
      if Ascii.eqb c ":" then true
      else if scheme_char c then scheme_rest s' else false
  end.

(** The text starts with a scheme: a letter, scheme characters, a colon.
    Without a base URL no other text parses as a URL. *)
Definition url_has_scheme (s : string) : bool :=
  match s with
  | EmptyString => false
  | String c s' => is_alpha c && scheme_rest s'
  end.

(** [Response.redirect(url, code)]: a TypeError when [url] does not parse.
    The targets the handler builds start with a configured [https://]
    destination, after which the path and query of a request's URL always
    parse, or with the text of an inherited member, which has no scheme:
    for them the scheme decides. *)
Definition Response_redirect (url : string) (code : Z) : Outcome Response :=
  if url_has_scheme url
  then Returns {| status := code; headers := [("Location", url)]; body := "" |}
  else Throws TypeError.

Section Worker.
Context `{JsRuntime}.
Local Open Scope run_scope.

(** The first [try] block of [fetchMetaData]: [Some r] is [return r],
    [None] is falling out of the block. *)
Definition primary_attempt (env : Env) (id : string) : M (option MetaData) :=
  timeoutId <- set_timeout (API_TIMEOUT CONFIG) ;;
  let apiUrl := API_URL CONFIG +:+ "?id=" +:+ id in
  response <- net_fetch env apiUrl (Some timeoutId) ;;
  clear_timeout timeoutId ;;;
  if resp_ok response then
    json <- response_json response ;;
    data <- lift (get_prop json "data") ;;
    trimmed <- lift (obind (opt_get data "name") opt_call_trim) ;;
    if truthy trimmed then
      dname <- lift (get_prop data "name") ;;
      tname <- lift (call_trim dname) ;;
      link <- lift (get_prop data "avatarLink") ;;
      ret (Some {| name := tname;
                   avatarLink := if truthy link then link else JString "" |})
    else ret None
  else ret None.

(** The second [try] block of [fetchMetaData]. *)
Definition backup_attempt (env : Env) (id : string) : M (option MetaData) :=
  let backupUrl := BACKUP_URL CONFIG +:+ "/" +:+ id +:+ ".json" in
  backupResponse <- net_fetch env backupUrl None ;;
  if resp_ok backupResponse then
    backup <- response_json backupResponse ;;
    trimmed <- lift (obind (opt_get backup "name") opt_call_trim) ;;
    if truthy trimmed then
      bname <- lift (get_prop backup "name") ;;
      tname <- lift (call_trim bname) ;;
      link <- lift (get_prop backup "avatarLink") ;;
      ret (Some {| name := tname;
                   avatarLink := if truthy link then link else JString "" |})
    else ret None
  else ret None.

(** [fetchMetaData] *)
Definition fetchMetaData (env : Env) (id : string) : M MetaData :=
  r1 <- try_catch (primary_attempt env id) (fun _ => ret None) ;;
  match r1 with
  | Some r => ret r
  | None =>
      r2 <- try_catch (backup_attempt env id) (fun _ => ret None) ;;
      match r2 with
      | Some r => ret r
      | None => ret {| name := ""; avatarLink := JString "" |}
      end
  end.

(** The cache block of the handler: [Some resp] is the [return] inside the
    [try], [None] is going on to [fetchMetaData]. *)
Definition cache_lookup (env : Env) (id : string) : M (option Response) :=
  match META_CACHE env with
  | Some kv =>
      try_catch
        (cached <- kv_get_json kv ("meta:" +:+ id) ;;
         if truthy cached then
           cname <- lift (get_prop cached "name") ;;
           clink <- lift (get_prop cached "avatarLink") ;;
           resp <- lift (createMetaResponse cname clink) ;;
           ret (Some resp)
         else ret None)
        (fun _ => ret None)
  | None => ret None
  end.

(** The write-back block of the handler. *)
Definition cache_store (env : Env) (id : string) (metaData : MetaData) : M unit :=
  match META_CACHE env with
  | Some kv =>
      if truthy (JString (name metaData)) then
        try_catch
          (kv_put_text kv ("meta:" +:+ id)
             (JSON_stringify (MetaData_object metaData)) (CACHE_TTL CONFIG))
          (fun _ => ret tt)
      else ret tt
  | None => ret tt
  end.

(** The handler, [export default { async fetch(request, env) }]. *)
Definition fetch (request : Request) (env : Env) : M Response :=
  let userAgent := toLowerCase (default "" (user_agent request)) in
  if negb (isFacebookCrawler userAgent) then
    let targetDomain :=
      match DOMAIN_MAP !! url_hostname request with
      | Some d => if truthy (JString d) then d else DEFAULT_REDIRECT
      | None =>
          match Object_prototype !! url_hostname request with
          | Some member => member
          | None => DEFAULT_REDIRECT
          end
      end in
    lift (Response_redirect
            (targetDomain +:+ url_pathname request +:+ url_search request) 301)
  else
    let pathname := url_pathname request in
    if String.eqb pathname "/" || String.eqb pathname "" then
      lift (createMetaResponse (JString "Trang chủ") (JString ""))
    else
      let slug := slice pathname 1 in
      match extractId slug with
      | None => lift (createMetaResponse (JString "Không tìm thấy") (JString ""))
      | Some id =>
          if String.eqb id "" then
            lift (createMetaResponse (JString "Không tìm thấy") (JString ""))
          else
            hit <- cache_lookup env id ;;
            match hit with
            | Some resp => ret resp
            | None =>
                metaData <- fetchMetaData env id ;;
                cache_store env id metaData ;;;
                lift (createMetaResponse (JString (name metaData)) (avatarLink metaData))
            end
      end.

End Worker.

(** ** Reading a rendered page back *)

(** The character an entity stands for, and how many characters follow
    its ampersand. *)
Definition entity_at (s : string) : option (ascii * nat) :=
  if starts_with "&amp;" s then Some ("&"%char, 4)
  else if starts_with "&lt;" s then Some ("<"%char, 3)
  else if starts_with "&gt;" s then Some (">"%char, 3)
  else if starts_with "&quot;" s then Some (dq, 5)
  else if starts_with "&#39;" s then Some ("'"%char, 4)
  else None.

(** Decoding of the five entities, left to right: at an entity emit its
    character and skip the rest of it. *)
Fixpoint unescape_from (skip : nat) (s : string) : string :=
  match s with
  | EmptyString => EmptyString
  | String a s' =>
      match skip with
      | S k => unescape_from k s'
      | O =>
          match entity_at s with
          | Some (c, n) => String c (unescape_from n s')
          | None => String a (unescape_from 0 s')
          end
      end
  end.

Definition unescape (s : string) : string := unescape_from 0 s.

(** The text that follows the first occurrence of [marker]. *)
Fixpoint text_after (marker s : string) : option string :=
  match strip_prefix marker s with
  | Some rest => Some rest
  | None =>
      match s with
      | EmptyString => None
      | String _ s' => text_after marker s'
      end
  end.

(** The text before the first [stop] character. *)
Fixpoint take_until (stop : ascii) (s : string) : string :=
  match s with
  | EmptyString => EmptyString
  | String a s' => if Ascii.eqb a stop then EmptyString else String a (take_until stop s')
  end.

(** The five characters that [escapeHtml] rewrites. *)
Definition special (a : ascii) : bool :=
  Ascii.eqb a "&" || Ascii.eqb a "<" || Ascii.eqb a ">" || Ascii.eqb a dq || Ascii.eqb a "'".

(** [c] occurs in [s]. *)
Fixpoint has_char (c : ascii) (s : string) : bool :=
  match s with
  | EmptyString => false
  | String a s' => Ascii.eqb a c || has_char c s'
  end.

(** [marker] and [s] differ at a position that both have. *)
Fixpoint clash (marker s : string) : bool :=
  match marker, s with
  | String a m', String b s' => if Ascii.eqb a b then clash m' s' else true
  | _, _ => false
  end.

(** No occurrence of [marker] can start inside [s], whatever follows [s]. *)
Fixpoint never_starts (marker s : string) : bool :=
  match s with
  | EmptyString => true
  | String _ s' => clash marker s && never_starts marker s'
  end.

(** The content of the [<title>] element. *)
Definition title_of (html : string) : option string :=
  take_until "<" <$> text_after "<title>" html.

Definition meta_marker (property : string) : string :=
  tpl "<meta property='" +:+ property +:+ tpl "' content='".

(** The [content] attribute of the [<meta property=...>] element. *)
Definition meta_content (property html : string) : option string :=
  take_until dq <$> text_after (meta_marker property) html.

(** ** The fallback chain as the specification words it *)

Section Resolution.
Context `{JsRuntime}.
Local Open Scope run_scope.

(** The validation both attempts of [fetchMetaData] apply to the object
    that should hold the name (the same statements in both blocks). *)
Definition take_record (holder : JsValue) : M (option MetaData) :=
  trimmed <- lift (obind (opt_get holder "name") opt_call_trim) ;;
  if truthy trimmed then
    hname <- lift (get_prop holder "name") ;;
    tname <- lift (call_trim hname) ;;
    link <- lift (get_prop holder "avatarLink") ;;
    ret (Some {| name := tname;
                 avatarLink := if truthy link then link else JString "" |})
  else ret None.

(** A body is usable when it is an object whose [name] is a string that
    is non-empty after trimming; the record keeps the trimmed name and the
    avatar link, or [''] when that is missing or falsy. *)
Definition usable_record (v : JsValue) : option MetaData :=
  match v with
  | JObject fields =>
      match lookup_field "name" fields with
      | Some (JString n) =>
          if String.eqb (trim n) "" then None
          else Some {| name := trim n;
                       avatarLink :=
                         match lookup_field "avatarLink" fields with
                         | Some link => if truthy link then link else JString ""
                         | None => JString ""
                         end |}
      | _ => None
      end
  | _ => None
  end.

(** The parsed body of a request that resolved with a success status. *)
Definition success_body (s : FetchSettle) : option JsValue :=
  match s with
  | Resolves r =>
      if resp_ok r then
        match resp_json r with
        | Parsed v => Some v
        | Malformed => None
        end
      else None
  | Rejects => None
  end.

Definition primary_url (id : string) : string := API_URL CONFIG +:+ "?id=" +:+ id.
Definition backup_url (id : string) : string := BACKUP_URL CONFIG +:+ "/" +:+ id +:+ ".json".

(** The primary source answers within the timeout, with success, and its
    [data] member is usable. *)
Definition primary_record (env : Env) (id : string) : option MetaData :=
  let b := net env (primary_url id) in
  if (latency b <? API_TIMEOUT CONFIG)%Z then
    match success_body (settles b) with
    | Some (JObject fields) =>
        match lookup_field "data" fields with
        | Some data => usable_record data
        | None => None
        end
    | _ => None
    end
  else None.

(** The backup source answers with success and its body is usable. *)
Definition backup_record (env : Env) (id : string) : option MetaData :=
  match success_body (settles (net env (backup_url id))) with
  | Some v => usable_record v
  | None => None
  end.

Definition empty_record : MetaData := {| name := ""; avatarLink := JString "" |}.

Definition resolved_record (env : Env) (id : string) : MetaData :=
  match primary_record env id with
  | Some r => r
  | None =>
      match backup_record env id with
      | Some r => r
      | None => empty_record
      end
  end.

End Resolution.

(** ** Observations on runs *)

(** The cache writes among the events of a run. *)
Fixpoint puts_of (evs : list Event) : list (string * string * Z) :=
  match evs with
  | [] => []
  | EvKvPut k v ttl :: rest => (k, v, ttl) :: puts_of rest
  | _ :: rest => puts_of rest
  end.

Definition is_fetch (e : Event) : bool :=
  match e with
  | EvFetch _ => true
  | _ => false
  end.

(** The request was rejected by the network before the timeout elapsed. *)
Definition rejected_in_time (b : FetchBehaviour) : bool :=
  (latency b <? API_TIMEOUT CONFIG)%Z &&
  match settles b with
  | Rejects => true
  | Resolves _ => false
  end.

(** [String(v)] completes. *)
Definition convertible (v : JsValue) : bool :=
  match to_string v with
  | Returns _ => true
  | Throws _ => false
  end.

(** The request comes from a crawler, as the handler decides it. *)
Definition from_crawler `{JsRuntime} (request : Request) : bool :=
  isFacebookCrawler (toLowerCase (default "" (user_agent request))).

Definition root_path (request : Request) : bool :=
  String.eqb (url_pathname request) "/" || String.eqb (url_pathname request) "".

(** The same environment with another behaviour of [put]. *)
Definition with_put_failures (f : string -> string -> Z -> bool) (env : Env) : Env :=
  {| META_CACHE :=
       (fun kv => {| kv_get := kv_get kv; kv_put_fails := f |}) <$> META_CACHE env;
     net := net env |}.

(** What the timers look like after the first block: the timer armed for
    the request is gone when the fetch resolved (cleared) or when the
    timeout elapsed (fired), and still armed when the fetch was rejected
    before that. *)
Definition timers_after_primary (env : Env) (id : string) (t : Timers) : Timers :=
  {| armed :=
       if rejected_in_time (net env (primary_url id))
       then <[next_timer t := API_TIMEOUT CONFIG]> (armed t)
       else delete (next_timer t) (<[next_timer t := API_TIMEOUT CONFIG]> (armed t));
     next_timer := S (next_timer t) |}.

(** The handler from its cache block on, for an identifier. *)
Definition serve `{JsRuntime} (env : Env) (id : string) : M Response :=
  (hit <- cache_lookup env id ;;
   match hit with
   | Some resp => ret resp
   | None =>
       metaData <- fetchMetaData env id ;;
       cache_store env id metaData ;;;
       lift (createMetaResponse (JString (name metaData)) (avatarLink metaData))
   end)%run.

(** The page the cache block serves, if any: the namespace is bound, the
    read gives a truthy value, and rendering its two members completes. *)
Definition cached_page (env : Env) (id : string) : option Response :=
  match META_CACHE env with
  | Some kv =>
      match kv_get kv ("meta:" +:+ id) with
      | KvJson cached =>
          if truthy cached then
            match obind (get_prop cached "name") (fun cname =>
                  obind (get_prop cached "avatarLink") (fun clink =>
                  createMetaResponse cname clink)) with
            | Returns resp => Some resp
            | Throws _ => None
            end
          else None
      | KvReadFails => None
      end
  | None => None
  end.

(** A metadata record [{ name: n, avatarLink: a }] with two strings. *)
Definition is_record (v : JsValue) (n a : string) : Prop :=
  exists fields,
    v = JObject fields /\
    lookup_field "name" fields = Some (JString n) /\
    lookup_field "avatarLink" fields = Some (JString a).

(** The segment after the last hyphen (the whole text without one). *)
Fixpoint last_segment (s : string) : string :=
  match s with
  | EmptyString => EmptyString
  | String a s' =>
      if has_char "-" s' then last_segment s'
      else if Ascii.eqb a "-" then s' else s
  end.

(** The extraction as the specification words it: the candidate is the
    segment after the last hyphen, or the whole slug without a hyphen, and
    it is validated in both cases. *)
Definition extractId_validated (slug : string) : option string :=
  if String.eqb slug "" then None
  else
    let candidate := if has_char "-" slug then last_segment slug else slug in
    if test_alnum candidate then Some candidate else None.

(** ** Deciding the scheme on a prefix *)

(** Reading [s] after the first letter already shows that no scheme
    follows, whatever comes after [s]. *)
Fixpoint scheme_rest_fails (s : string) : bool :=
  match s with
  | EmptyString => false
  | String c s' =>
      if Ascii.eqb c ":" then false
      else if scheme_char c then scheme_rest_fails s' else true
  end.

(** No text that starts with [s] has a scheme. *)
Definition no_scheme (s : string) : bool :=
  match s with
  | EmptyString => false
  | String c s' => negb (is_alpha c) || scheme_rest_fails s'
  end.

(** ** One-pass reading of [escapeHtml] *)

(** What one character becomes. *)
Definition escape_char (a : ascii) : string :=
  if Ascii.eqb a "&" then "&amp;"
  else if Ascii.eqb a "<" then "&lt;"
  else if Ascii.eqb a ">" then "&gt;"
  else if Ascii.eqb a dq then "&quot;"
  else if Ascii.eqb a "'" then "&#39;"
  else String a EmptyString.

(** Every character replaced on its own, in one pass. *)
Fixpoint escape_each (s : string) : string :=
  match s with
  | EmptyString => EmptyString
  | String a s' => escape_char a +:+ escape_each s'
  end.

(** One of the five characters occurs in [s]. *)
Fixpoint any_special (s : string) : bool :=
  match s with
  | EmptyString => false
  | String a s' => special a || any_special s'
  end.

(** [escapeHtml(v)] completes: [v] is falsy, or [String(v)] completes. *)
Definition renderable (v : JsValue) : bool := negb (truthy v) || convertible v.

(** ** A runtime and environments to run the worker on *)

Definition lower_char (c : ascii) : ascii :=
  let n := N_of_ascii c in
  if ((65 <=? n) && (n <=? 90))%N then ascii_of_N (n + 32) else c.

Fixpoint lower_ascii (s : string) : string :=
  match s with
  | EmptyString => EmptyString
  | String c s' => String (lower_char c) (lower_ascii s')
  end.

Definition is_space (c : ascii) : bool :=
  let n := N_of_ascii c in
  ((n =? 32) || (9 <=? n) && (n <=? 13))%N.

Fixpoint trim_left (s : string) : string :=
  match s with
  | EmptyString => EmptyString
  | String c s' => if is_space c then trim_left s' else s
  end.

Fixpoint trim_right (s : string) : string :=
  match s with
  | EmptyString => EmptyString
  | String c s' =>
      match trim_right s' with
      | EmptyString => if is_space c then EmptyString else String c EmptyString
      | rest => String c rest
      end
  end.

Definition quote_text (s : string) : string :=
  String dq (replace_all dq (String "\" (String dq EmptyString))
               (replace_all "\" "\\" s)) +:+ String dq EmptyString.

(** Serialisation of the values the worker stores (text without control
    characters). *)
Fixpoint stringify (v : JsValue) : string :=
  match v with
  | JUndefined | JNull => "null"
  | JBool true => "true"
  | JBool false => "false"
  | JNumber t => t
  | JString s => quote_text s
  | JArray items =>
      "[" +:+
      (fix go (l : list JsValue) : string :=
         match l with
         | [] => ""
         | [x] => stringify x
         | x :: rest => stringify x +:+ "," +:+ go rest
         end) items +:+ "]"
  | JObject fields =>
      "{" +:+
      (fix go (l : list (string * JsValue)) : string :=
         match l with
         | [] => ""
         | [(k, x)] => quote_text k +:+ ":" +:+ stringify x
         | (k, x) :: rest => quote_text k +:+ ":" +:+ stringify x +:+ "," +:+ go rest
         end) fields +:+ "}"
  end.

(** A runtime for ASCII text. *)
Definition ascii_runtime : JsRuntime := {|
  toLowerCase := lower_ascii;
  trim := fun s => trim_right (trim_left s);
  JSON_stringify := stringify
|}.

Definition http (code : Z) (v : JsValue) : FetchBehaviour :=
  {| latency := 120; settles := Resolves {| resp_status := code; resp_json := Parsed v |} |}.

Definition unreachable : FetchBehaviour := {| latency := 15; settles := Rejects |}.

(** A namespace that holds [v] under [key] and nothing else. *)
Definition kv_holding (key : string) (v : JsValue) : KVNamespace :=
  {| kv_get := fun k => KvJson (if String.eqb k key then v else JNull);
     kv_put_fails := fun _ _ _ => false |}.

Definition kv_empty : KVNamespace :=
  {| kv_get := fun _ => KvJson JNull; kv_put_fails := fun _ _ _ => false |}.

(** No cache bound, both sources unreachable. *)
Definition env_offline : Env :=
  {| META_CACHE := None; net := fun _ => unreachable |}.

(** An empty cache; the primary source knows every identifier as [Win]. *)
Definition env_primary : Env :=
  {| META_CACHE := Some kv_empty;
     net := fun url =>
       if starts_with (API_URL CONFIG) url then
         http 200 (JObject [("data", JObject [("name", JString " Win ");
                                              ("avatarLink", JString "http://x/img.png")])])
       else unreachable |}.

(** The cache already holds the record of [abc123]. *)
Definition env_cached : Env :=
  {| META_CACHE :=
       Some (kv_holding "meta:abc123"
               (JObject [("name", JString "Tom & Jerry");
                         ("avatarLink", JString "http://x/a.png?w=1&h=2")]));
     net := fun _ => unreachable |}.

(** The primary source sends an avatar link that is an object with a
    member [toString]. *)
Definition env_odd_link : Env :=
  {| META_CACHE := None;
     net := fun url =>
       if starts_with (API_URL CONFIG) url then
         http 200 (JObject [("data", JObject [("name", JString "Win");
                                              ("avatarLink", JObject [("toString", JNumber "1")])])])
       else unreachable |}.

(** The same sources behind an empty cache. *)
Definition env_odd_link_cached : Env :=
  {| META_CACHE := Some kv_empty; net := net env_odd_link |}.

(** A namespace whose reads fail. *)
Definition kv_broken : KVNamespace :=
  {| kv_get := fun _ => KvReadFails; kv_put_fails := fun _ _ _ => true |}.

(** The primary source of [env_primary] behind a cache that fails. *)
Definition env_broken_cache : Env :=
  {| META_CACHE := Some kv_broken; net := net env_primary |}.

(** The cache holds a number under the key of [abc123]. *)
Definition env_cached_number : Env :=
  {| META_CACHE := Some (kv_holding "meta:abc123" (JNumber "5"));
     net := net env_primary |}.

(** The cache holds what a miss on [env_primary] writes back. *)
Definition env_written_back : Env :=
  {| META_CACHE :=
       Some (kv_holding "meta:abc123"
               (MetaData_object {| name := "Win";
                                   avatarLink := JString "http://x/img.png" |}));
     net := fun _ => unreachable |}.

(** The cache holds a record whose name is an object with a member
    [toString]; the primary source of [env_primary] is behind it. *)
Definition env_cached_odd : Env :=
  {| META_CACHE :=
       Some (kv_holding "meta:abc123"
               (JObject [("name", JObject [("toString", JNumber "1")]);
                         ("avatarLink", JString "")]));
     net := net env_primary |}.

Definition crawler_request (path : string) : Request :=
  {| url_hostname := "tuneblast.us"; url_pathname := path; url_search := "";
     user_agent := Some "facebookexternalhit/1.1 (+http://www.facebook.com/externalhit_uatext.php)" |}.

Definition visitor_request (host path query : string) : Request :=
  {| url_hostname := host; url_pathname := path; url_search := query;
     user_agent := Some "Mozilla/5.0 (X11; Linux x86_64) Firefox/128.0" |}.


(** * Proofs *)

(** ** Text *)

Section Text.
#[local] Arguments append !s1 s2 : simpl nomatch.

Lemma append_empty_r (s : string) : s +:+ "" = s.
Proof. induction s as [|a s IH]; simpl; [reflexivity | now rewrite IH]. Qed.

Lemma append_assoc (s1 s2 s3 : string) : (s1 +:+ s2) +:+ s3 = s1 +:+ (s2 +:+ s3).
Proof. induction s1 as [|a s1 IH]; simpl; [reflexivity | now rewrite IH]. Qed.

Lemma length_append (s1 s2 : string) :
  String.length (s1 +:+ s2) = (String.length s1 + String.length s2)%nat.
Proof. induction s1 as [|a s1 IH]; simpl; [reflexivity | now rewrite IH]. Qed.

Lemma replace_all_app (c : ascii) (r s1 s2 : string) :
  replace_all c r (s1 +:+ s2) = replace_all c r s1 +:+ replace_all c r s2.
Proof.
  induction s1 as [|a s1 IH]; simpl; [reflexivity|].
  destruct (Ascii.eqb a c); rewrite IH; [now rewrite append_assoc | reflexivity].
Qed.

Lemma escape_text_app (s1 s2 : string) :
  escape_text (s1 +:+ s2) = escape_text s1 +:+ escape_text s2.
Proof. unfold escape_text. now rewrite !replace_all_app. Qed.

Lemma has_char_app (c : ascii) (s1 s2 : string) :
  has_char c (s1 +:+ s2) = has_char c s1 || has_char c s2.
Proof.
  induction s1 as [|a s1 IH]; simpl; [reflexivity|].
  now rewrite IH, orb_assoc.
Qed.

Lemma special_cases (a : ascii) :
  a = "&"%char \/ a = "<"%char \/ a = ">"%char \/ a = dq \/ a = "'"%char \/ special a = false.
Proof.
  unfold special.
  destruct (Ascii.eqb_spec a "&"); [tauto|].
  destruct (Ascii.eqb_spec a "<"); [tauto|].
  destruct (Ascii.eqb_spec a ">"); [tauto|].
  destruct (Ascii.eqb_spec a dq); [tauto|].
  destruct (Ascii.eqb_spec a "'"); tauto.
Qed.

Lemma special_false (a : ascii) :
  special a = false ->
  Ascii.eqb a "&" = false /\ Ascii.eqb a "<" = false /\ Ascii.eqb a ">" = false /\
  Ascii.eqb a dq = false /\ Ascii.eqb a "'" = false.
Proof.
  unfold special. intros E.
  repeat (apply orb_false_elim in E; destruct E as [E ?]). tauto.
Qed.

Lemma escape_text_plain (a : ascii) :
  special a = false -> escape_text (String a "") = String a "".
Proof.
  intros E. apply special_false in E. destruct E as (E1 & E2 & E3 & E4 & E5).
  unfold escape_text. simpl.
  rewrite E1. simpl. rewrite E2. simpl. rewrite E3. simpl. rewrite E4. simpl.
  now rewrite E5.
Qed.

Lemma escape_text_cons (a : ascii) (s : string) :
  escape_text (String a s) = escape_text (String a "") +:+ escape_text s.
Proof. now rewrite <- escape_text_app. Qed.

Lemma starts_with_other (c a : ascii) (m s : string) :
  Ascii.eqb c a = false -> starts_with (String c m) (String a s) = false.
Proof. intros E. unfold starts_with. cbn [strip_prefix]. now rewrite E. Qed.

Lemma entity_at_plain (a : ascii) (s : string) :
  Ascii.eqb a "&" = false -> entity_at (String a s) = None.
Proof.
  intros E. rewrite Ascii.eqb_sym in E. unfold entity_at.
  now rewrite !(starts_with_other "&" a _ s E).
Qed.

Lemma unescape_step (a : ascii) (rest : string) :
  unescape_from 0 (escape_text (String a "") +:+ rest) = String a (unescape_from 0 rest).
Proof.
  destruct (special_cases a) as [->|[->|[->|[->|[->|E]]]]]; try reflexivity.
  rewrite (escape_text_plain a E). simpl append.
  apply special_false in E. destruct E as (E & _).
  cbn [unescape_from]. now rewrite (entity_at_plain a rest E).
Qed.

Lemma unescape_escape_app (s rest : string) :
  unescape_from 0 (escape_text s +:+ rest) = s +:+ unescape_from 0 rest.
Proof.
  induction s as [|a s IH]; [reflexivity|].
  rewrite escape_text_cons, append_assoc, unescape_step, IH. reflexivity.
Qed.

Lemma unescape_escape (s : string) : unescape (escape_text s) = s.
Proof.
  unfold unescape. rewrite <- (append_empty_r (escape_text s)).
  rewrite unescape_escape_app. simpl. apply append_empty_r.
Qed.

Lemma escape_text_injective (s1 s2 : string) :
  escape_text s1 = escape_text s2 -> s1 = s2.
Proof.
  intros E. rewrite <- (unescape_escape s1), <- (unescape_escape s2). now rewrite E.
Qed.

(** Escaped text holds none of [<], [>] and the two quotes. *)
Lemma escape_text_clean (c : ascii) (s : string) :
  special c = true -> c <> "&"%char -> has_char c (escape_text s) = false.
Proof.
  intros Hc Hamp. induction s as [|a s IH]; [reflexivity|].
  rewrite escape_text_cons, has_char_app, IH, orb_false_r.
  destruct (special_cases a) as [->|[->|[->|[->|[->|E]]]]].
  1-5: destruct (special_cases c) as [->|[->|[->|[->|[->|E']]]]];
       [congruence | reflexivity .. | congruence ].
  rewrite (escape_text_plain a E). simpl. rewrite orb_false_r.
  destruct (Ascii.eqb_spec a c) as [->|]; [congruence | reflexivity].
Qed.

(** ** Finding a marker in a page *)

Lemma strip_prefix_length (m p r : string) :
  strip_prefix m p = Some r ->
  String.length p = (String.length m + String.length r)%nat.
Proof.
  revert p. induction m as [|a m IH]; intros [|b p] E; simpl in *;
    try discriminate; try (injection E as <-; reflexivity).
  destruct (Ascii.eqb a b); [|discriminate]. now rewrite (IH _ E).
Qed.

Lemma strip_prefix_found (m p r t : string) :
  strip_prefix m p = Some r -> strip_prefix m (p +:+ t) = Some (r +:+ t).
Proof.
  revert p. induction m as [|a m IH]; intros p E; simpl in *.
  - now injection E as <-.
  - destruct p as [|b p]; [discriminate|]. simpl.
    destruct (Ascii.eqb a b); [now apply IH | discriminate].
Qed.

Lemma strip_prefix_clash (m p t : string) :
  clash m p = true -> strip_prefix m (p +:+ t) = None.
Proof.
  revert p. induction m as [|a m IH]; intros [|b p] E; simpl in *; try discriminate.
  destruct (Ascii.eqb a b); [now apply IH | reflexivity].
Qed.

Lemma strip_prefix_none (m p : string) :
  strip_prefix m p = None ->
  clash m p = true \/ (String.length p < String.length m)%nat.
Proof.
  revert p. induction m as [|a m IH]; intros [|b p] E; simpl in *;
    try discriminate; [right; lia|].
  destruct (Ascii.eqb a b); [|now left].
  destruct (IH _ E); [now left | right; lia].
Qed.

Lemma text_after_length (m p r : string) :
  text_after m p = Some r -> (String.length m <= String.length p)%nat.
Proof.
  induction p as [|b p IH]; simpl; intros E.
  - destruct (strip_prefix m "") eqn:S; [|discriminate].
    apply strip_prefix_length in S. simpl in S. lia.
  - destruct (strip_prefix m (String b p)) eqn:S.
    + apply strip_prefix_length in S. simpl in S. simpl. lia.
    + specialize (IH E). simpl. lia.
Qed.

(** A marker found in a prefix is found there whatever follows. *)
Lemma text_after_found (m p r t : string) :
  text_after m p = Some r -> text_after m (p +:+ t) = Some (r +:+ t).
Proof.
  induction p as [|b p IH]; intros E.
  - simpl in E. destruct (strip_prefix m "") eqn:S; [|discriminate].
    injection E as <-. destruct m; [|discriminate]. simpl in S. injection S as <-.
    destruct t; reflexivity.
  - cbn [text_after] in E.
    destruct (strip_prefix m (String b p)) eqn:S.
    + injection E as <-. simpl append. cbn [text_after].
      change (String b (p +:+ t)) with (String b p +:+ t).
      now rewrite (strip_prefix_found _ _ _ t S).
    + simpl append. cbn [text_after].
      change (String b (p +:+ t)) with (String b p +:+ t).
      destruct (strip_prefix_none _ _ S) as [C|L].
      * rewrite (strip_prefix_clash _ _ t C). now apply IH.
      * apply text_after_length in E. simpl in L. lia.
Qed.

(** A prefix in which the marker cannot start is skipped. *)
Lemma text_after_skip (m p t : string) :
  never_starts m p = true -> text_after m (p +:+ t) = text_after m t.
Proof.
  induction p as [|b p IH]; intros E; [reflexivity|].
  cbn [never_starts] in E. apply andb_prop in E. destruct E as [C N].
  simpl append. cbn [text_after].
  change (String b (p +:+ t)) with (String b p +:+ t).
  rewrite (strip_prefix_clash _ _ t C). now apply IH.
Qed.

Lemma never_starts_free (c : ascii) (m x : string) :
  has_char c x = false -> never_starts (String c m) x = true.
Proof.
  induction x as [|a x IH]; intros E; [reflexivity|].
  cbn [has_char] in E. apply orb_false_elim in E. destruct E as [E1 E2].
  cbn [never_starts clash]. rewrite Ascii.eqb_sym, E1. now rewrite IH.
Qed.

Lemma take_until_free (c : ascii) (x t : string) :
  has_char c x = false -> take_until c (x +:+ t) = x +:+ take_until c t.
Proof.
  induction x as [|a x IH]; intros E; [reflexivity|].
  cbn [has_char] in E. apply orb_false_elim in E. destruct E as [E1 E2].
  simpl. rewrite E1. now rewrite IH.
Qed.

Lemma take_until_found (c : ascii) (p t : string) :
  has_char c p = true -> take_until c (p +:+ t) = take_until c p.
Proof.
  induction p as [|a p IH]; intros E; [discriminate|].
  cbn [has_char] in E. simpl.
  destruct (Ascii.eqb a c); [reflexivity|]. simpl in E. now rewrite IH.
Qed.

(** The text in a hole of the template is read back when it holds neither
    [<] nor a double quote and the template goes on with the stop
    character. *)
Lemma read_hole (c : ascii) (x p t : string) :
  has_char c x = false -> has_char c p = true -> take_until c p = "" ->
  take_until c (x +:+ p +:+ t) = x.
Proof.
  intros Hx Hp E.
  now rewrite (take_until_free c x _ Hx), (take_until_found c p t Hp), E, append_empty_r.
Qed.

Section Page.
Variables safeName safeImage : string.
Hypothesis name_lt : has_char "<" safeName = false.
Hypothesis name_dq : has_char dq safeName = false.
Hypothesis image_dq : has_char dq safeImage = false.

Lemma title_of_page : title_of (html_document safeName safeImage) = Some safeName.
Proof.
  unfold title_of, html_document.
  rewrite (text_after_found "<title>" html_head "" _ eq_refl).
  cbn [fmap option_fmap option_map append].
  f_equal. apply read_hole; [assumption | reflexivity | reflexivity].
Qed.

Lemma og_title_of_page :
  meta_content "og:title" (html_document safeName safeImage) = Some safeName.
Proof.
  unfold meta_content, html_document.
  rewrite (text_after_skip (meta_marker "og:title") html_head _ eq_refl).
  rewrite (text_after_skip (meta_marker "og:title") safeName _ (never_starts_free "<" _ _ name_lt)).
  rewrite (text_after_found (meta_marker "og:title") html_to_og_title "" _ eq_refl).
  cbn [fmap option_fmap option_map append].
  f_equal. apply read_hole; [assumption | reflexivity | reflexivity].
Qed.

Lemma og_description_of_page :
  meta_content "og:description" (html_document safeName safeImage) = Some safeName.
Proof.
  unfold meta_content, html_document.
  rewrite (text_after_skip (meta_marker "og:description") html_head _ eq_refl).
  rewrite (text_after_skip (meta_marker "og:description") safeName _ (never_starts_free "<" _ _ name_lt)).
  rewrite (text_after_skip (meta_marker "og:description") html_to_og_title _ eq_refl).
  rewrite (text_after_skip (meta_marker "og:description") safeName _ (never_starts_free "<" _ _ name_lt)).
  rewrite (text_after_found (meta_marker "og:description") html_to_og_description "" _ eq_refl).
  cbn [fmap option_fmap option_map append].
  f_equal. apply read_hole; [assumption | reflexivity | reflexivity].
Qed.

Lemma og_image_of_page :
  meta_content "og:image" (html_document safeName safeImage) = Some safeImage.
Proof.
  unfold meta_content, html_document.
  rewrite (text_after_skip (meta_marker "og:image") html_head _ eq_refl).
  rewrite (text_after_skip (meta_marker "og:image") safeName _ (never_starts_free "<" _ _ name_lt)).
  rewrite (text_after_skip (meta_marker "og:image") html_to_og_title _ eq_refl).
  rewrite (text_after_skip (meta_marker "og:image") safeName _ (never_starts_free "<" _ _ name_lt)).
  rewrite (text_after_skip (meta_marker "og:image") html_to_og_description _ eq_refl).
  rewrite (text_after_skip (meta_marker "og:image") safeName _ (never_starts_free "<" _ _ name_lt)).
  rewrite (text_after_found (meta_marker "og:image") html_to_og_image "" _ eq_refl).
  cbn [fmap option_fmap option_map append].
  rewrite <- (append_empty_r html_tail).
  f_equal. apply read_hole; [assumption | reflexivity | reflexivity].
Qed.

End Page.

End Text.

(** ** Rendering *)

Lemma escapeHtml_string (s : string) : escapeHtml (JString s) = Returns (escape_text s).
Proof. destruct s; reflexivity. Qed.

Lemma createMetaResponse_strings (n a : string) :
  createMetaResponse (JString n) (JString a) =
  Returns {| status := 200; headers := meta_headers;
             body := html_document (escape_text n) (escape_text a) |}.
Proof. unfold createMetaResponse. now rewrite !escapeHtml_string. Qed.

Lemma escaped_no_lt (s : string) : has_char "<" (escape_text s) = false.
Proof. now apply escape_text_clean. Qed.

Lemma escaped_no_dq (s : string) : has_char dq (escape_text s) = false.
Proof. now apply escape_text_clean. Qed.

(** C6. Rendering a page from any two strings and decoding the five
    entities in the title, [og:title], [og:description] and [og:image]
    values read back from the page gives the two strings again; in
    particular the escaping is injective. *)
Theorem escaping_round_trip (n a : string) :
  exists resp,
    createMetaResponse (JString n) (JString a) = Returns resp /\
    unescape <$> title_of (body resp) = Some n /\
    unescape <$> meta_content "og:title" (body resp) = Some n /\
    unescape <$> meta_content "og:description" (body resp) = Some n /\
    unescape <$> meta_content "og:image" (body resp) = Some a /\
    (forall n' a', createMetaResponse (JString n') (JString a') = Returns resp ->
                   n' = n /\ a' = a).
Proof.
  eexists. split; [apply createMetaResponse_strings|]. cbn [body].
  pose proof (escaped_no_lt n) as Hlt.
  pose proof (escaped_no_dq n) as Hdq.
  pose proof (escaped_no_dq a) as Hdq'.
  rewrite title_of_page, og_title_of_page, og_description_of_page, og_image_of_page
    by assumption.
  cbn [fmap option_fmap option_map]. rewrite !unescape_escape.
  repeat split; try reflexivity.
  all: rewrite createMetaResponse_strings in H;
    assert (E : html_document (escape_text n') (escape_text a') =
                html_document (escape_text n) (escape_text a)) by congruence.
  - apply (f_equal title_of) in E.
    rewrite !title_of_page in E by (apply escaped_no_lt || apply escaped_no_dq).
    injection E as E. now apply escape_text_injective.
  - apply (f_equal (meta_content "og:image")) in E.
    rewrite !og_image_of_page in E by (apply escaped_no_lt || apply escaped_no_dq).
    injection E as E. now apply escape_text_injective.
Qed.

(** ** Runs of the fallback chain *)

Section Chain.
Context `{JsRuntime}.
Local Open Scope run_scope.

Lemma take_record_run (v : JsValue) (t : Timers) :
  after (take_record v t) = t /\
  events (take_record v t) = [] /\
  (completion (take_record v t) = Returns (usable_record v) \/
   exists e, completion (take_record v t) = Throws e /\ usable_record v = None).
Proof.
  unfold take_record, bind, lift, ret, opt_get, opt_call_trim, call_trim, get_prop.
  destruct v as [| | b | num | s | items | fields]; cbn;
    try (repeat split; eauto; fail).
  destruct (lookup_field "name" fields) as [nv|]; cbn;
    [destruct nv; cbn|]; try (repeat split; eauto; fail).
  destruct (String.eqb (trim s) ""); cbn; [repeat split; eauto|].
  destruct (lookup_field "avatarLink" fields) as [link|]; cbn; repeat split; eauto.
Qed.

(** Close a goal about a run that ends in [take_record]: name what the
    validation leaves behind and split on its two completions. *)
Ltac finish_with_take_record :=
  match goal with
  | |- context [take_record ?v ?t0] =>
      let Ha := fresh "Ha" in
      let He := fresh "He" in
      let Hc := fresh "Hc" in
      destruct (take_record_run v t0) as (Ha & He & Hc);
      destruct (take_record v t0) as [ta te tc];
      cbn in Ha, He, Hc; subst ta te;
      cbn -[primary_url backup_url];
      destruct Hc as [->|(? & -> & ->)]; reflexivity
  end.

Lemma primary_attempt_eq (env : Env) (id : string) :
  primary_attempt env id =
  (timeoutId <- set_timeout (API_TIMEOUT CONFIG) ;;
   response <- net_fetch env (primary_url id) (Some timeoutId) ;;
   clear_timeout timeoutId ;;;
   if resp_ok response then
     json <- response_json response ;;
     data <- lift (get_prop json "data") ;;
     take_record data
   else ret None).
Proof. reflexivity. Qed.

Lemma backup_attempt_eq (env : Env) (id : string) :
  backup_attempt env id =
  (backupResponse <- net_fetch env (backup_url id) None ;;
   if resp_ok backupResponse then
     backup <- response_json backupResponse ;;
     take_record backup
   else ret None).
Proof. reflexivity. Qed.

Lemma guarded_run {A} (m : M (option A)) (t : Timers) :
  try_catch m (fun _ => ret None) t =
  {| after := after (m t); events := events (m t);
     completion := match completion (m t) with
                   | Returns a => Returns a
                   | Throws _ => Returns None
                   end |}.
Proof.
  unfold try_catch, ret. destruct (m t) as [t' evs [a|e]]; cbn; [reflexivity|].
  now rewrite app_nil_r.
Qed.

Lemma primary_run (env : Env) (id : string) (t : Timers) :
  try_catch (primary_attempt env id) (fun _ => ret None) t =
  {| after := timers_after_primary env id t;
     events := [EvFetch (primary_url id)];
     completion := Returns (primary_record env id) |}.
Proof.
  rewrite guarded_run, primary_attempt_eq.
  unfold timers_after_primary, primary_record, rejected_in_time, success_body.
  unfold bind, set_timeout, net_fetch, clear_timeout, response_json, lift, ret.
  cbn [after events completion armed next_timer].
  rewrite lookup_insert_eq, Z.ltb_antisym.
  destruct (net env (primary_url id)) as [lat st]. cbn [latency settles].
  destruct (API_TIMEOUT CONFIG <=? lat)%Z; [reflexivity|].
  destruct st as [r|]; [|reflexivity].
  cbn -[resp_ok primary_url].
  destruct (resp_ok r); [|reflexivity].
  destruct (resp_json r) as [json|]; [|reflexivity].
  cbn -[primary_url].
  destruct json as [| | b | num | s | items | fields]; try reflexivity.
  cbn -[primary_url].
  destruct (lookup_field "data" fields) as [data|]; cbn -[primary_url];
    [|reflexivity].
  cbn -[primary_url]. finish_with_take_record.
Qed.

Lemma backup_run (env : Env) (id : string) (t : Timers) :
  try_catch (backup_attempt env id) (fun _ => ret None) t =
  {| after := t;
     events := [EvFetch (backup_url id)];
     completion := Returns (backup_record env id) |}.
Proof.
  rewrite guarded_run, backup_attempt_eq.
  unfold backup_record, success_body.
  unfold bind, net_fetch, response_json, lift, ret.
  cbn [after events completion].
  destruct (settles (net env (backup_url id))) as [r|]; [|reflexivity].
  cbn -[resp_ok backup_url].
  destruct (resp_ok r); [|reflexivity].
  destruct (resp_json r) as [json|]; [|reflexivity].
  cbn -[backup_url].
  cbn -[backup_url]. finish_with_take_record.
Qed.

Lemma fetchMetaData_run (env : Env) (id : string) (t : Timers) :
  fetchMetaData env id t =
  {| after := timers_after_primary env id t;
     events := EvFetch (primary_url id) ::
               match primary_record env id with
               | Some _ => []
               | None => [EvFetch (backup_url id)]
               end;
     completion := Returns (resolved_record env id) |}.
Proof.
  unfold fetchMetaData, resolved_record. unfold bind at 1. rewrite primary_run.
  cbn [after events completion].
  destruct (primary_record env id) as [r|]; [reflexivity|].
  unfold bind. rewrite backup_run. cbn [after events completion].
  destruct (backup_record env id) as [r|]; reflexivity.
Qed.

(** C3. [fetchMetaData] always completes with a record and never throws:
    the record of the primary source when that answers within the timeout,
    with a success status and a name that is non-empty after trimming;
    otherwise the record of the backup source under the same rule;
    otherwise [{ name: '', avatarLink: '' }]. *)
Theorem fetchMetaData_total (env : Env) (id : string) (t : Timers) :
  completion (fetchMetaData env id t) =
  Returns match primary_record env id with
          | Some r => r
          | None =>
              match backup_record env id with
              | Some r => r
              | None => {| name := ""; avatarLink := JString "" |}
              end
          end.
Proof.
  unfold fetchMetaData. unfold bind at 1. rewrite primary_run.
  cbn [after events completion].
  destruct (primary_record env id) as [r|]; [reflexivity|].
  unfold bind. rewrite backup_run. cbn [after events completion].
  destruct (backup_record env id) as [r|]; reflexivity.
Qed.

End Chain.

(** ** Identifier extraction *)

Lemma lastIndexOf_from_absent (c : ascii) (s : string) (i acc : Z) :
  has_char c s = false -> lastIndexOf_from c s i acc = acc.
Proof.
  revert i acc. induction s as [|a s IH]; intros i acc E; [reflexivity|].
  cbn [has_char] in E. apply orb_false_elim in E. destruct E as [E1 E2].
  cbn [lastIndexOf_from]. rewrite E1. now apply IH.
Qed.

Lemma lastIndexOf_from_app (c : ascii) (s1 s2 : string) (i acc : Z) :
  lastIndexOf_from c (s1 +:+ s2) i acc =
  lastIndexOf_from c s2 (i + Z.of_nat (String.length s1)) (lastIndexOf_from c s1 i acc).
Proof.
  revert i acc. induction s1 as [|a s1 IH]; intros i acc.
  - cbn. now rewrite Z.add_0_r.
  - change (String a s1 +:+ s2) with (String a (s1 +:+ s2)).
    cbn [lastIndexOf_from String.length]. rewrite IH. f_equal. lia.
Qed.

(** Every text with a hyphen splits at its last one. *)
Lemma split_last_hyphen (s : string) :
  has_char "-" s = true ->
  exists pre, s = pre +:+ String "-" (last_segment s) /\
              has_char "-" (last_segment s) = false.
Proof.
  induction s as [|a s IH]; [discriminate|]. intros E.
  cbn [last_segment]. destruct (has_char "-" s) eqn:Hs.
  - destruct (IH eq_refl) as (pre & E1 & E2).
    exists (String a pre). split; [|exact E2].
    change (String a pre +:+ String "-" (last_segment s))
      with (String a (pre +:+ String "-" (last_segment s))).
    now rewrite <- E1.
  - cbn [has_char] in E. rewrite Hs, orb_false_r in E. rewrite E.
    apply Ascii.eqb_eq in E. subst a. exists "". split; [reflexivity | exact Hs].
Qed.

Lemma drop_chars_app (s1 s2 : string) :
  drop_chars (String.length s1) (s1 +:+ s2) = s2.
Proof. induction s1 as [|a s1 IH]; [reflexivity | exact IH]. Qed.

Lemma lastIndexOf_split (pre suf : string) :
  has_char "-" suf = false ->
  lastIndexOf (pre +:+ String "-" suf) "-" = Z.of_nat (String.length pre).
Proof.
  intros E. unfold lastIndexOf. rewrite lastIndexOf_from_app.
  cbn [lastIndexOf_from]. rewrite Ascii.eqb_refl.
  now rewrite (lastIndexOf_from_absent _ _ _ _ E).
Qed.

Lemma slice_split (pre suf : string) :
  slice (pre +:+ String "-" suf) (Z.of_nat (String.length pre) + 1) = suf.
Proof.
  unfold slice. rewrite length_append. cbn [String.length].
  destruct (Z.ltb_spec (Z.of_nat (String.length pre) + 1) 0); [lia|].
  rewrite Z.min_l by lia.
  replace (Z.to_nat (Z.of_nat (String.length pre) + 1))
    with (String.length (pre +:+ "-")) by (rewrite length_append; cbn; lia).
  replace (pre +:+ String "-" suf) with ((pre +:+ "-") +:+ suf)
    by (now rewrite append_assoc).
  apply drop_chars_app.
Qed.

Lemma test_alnum_nonempty (s : string) : test_alnum s = true -> s <> "".
Proof. now destruct s. Qed.

(** What [extractId] computes: with a hyphen, the validated last segment;
    without one, the slug as it is. *)
Lemma extractId_cases (slug : string) :
  extractId slug =
  if String.eqb slug "" then None
  else if has_char "-" slug
       then (if test_alnum (last_segment slug) then Some (last_segment slug) else None)
       else Some slug.
Proof.
  unfold extractId. destruct (String.eqb slug ""); [reflexivity|].
  destruct (has_char "-" slug) eqn:Hh.
  - destruct (split_last_hyphen slug Hh) as (pre & E1 & E2).
    remember (last_segment slug) as seg eqn:Hseg. clear Hseg Hh. subst slug.
    cbv zeta. rewrite (lastIndexOf_split _ _ E2).
    destruct (Z.eqb_spec (Z.of_nat (String.length pre)) (-1)); [lia|].
    now rewrite slice_split.
  - unfold lastIndexOf. now rewrite (lastIndexOf_from_absent _ _ _ _ Hh).
Qed.

Lemma extractId_nonempty (slug id : string) : extractId slug = Some id -> id <> "".
Proof.
  rewrite extractId_cases. destruct (String.eqb_spec slug ""); [discriminate|].
  destruct (has_char "-" slug).
  - destruct (test_alnum (last_segment slug)) eqn:T; [|discriminate].
    intros [= <-]. now apply test_alnum_nonempty.
  - now intros [= <-].
Qed.

(** The source and the specification agree on every slug that is empty,
    has a hyphen, or is alphanumeric. *)
Lemma extractId_validated_agree (slug : string) :
  has_char "-" slug = true \/ test_alnum slug = true \/ slug = "" ->
  extractId slug = extractId_validated slug.
Proof.
  intros Hc. rewrite extractId_cases. unfold extractId_validated.
  destruct (String.eqb_spec slug ""); [reflexivity|].
  destruct (has_char "-" slug); [reflexivity|].
  destruct Hc as [Hc|[Hc|Hc]]; [discriminate | now rewrite Hc | contradiction].
Qed.

(** C1. A slug without a hyphen is returned as it is, validated or not:
    on such a slug that is not alphanumeric the source gives the slug where
    the specification gives no identifier. *)
Theorem extractId_unvalidated (slug : string) :
  slug <> "" -> has_char "-" slug = false -> test_alnum slug = false ->
  extractId slug = Some slug /\ extractId_validated slug = None.
Proof.
  intros Hne Hh Ht. rewrite extractId_cases. unfold extractId_validated.
  destruct (String.eqb_spec slug ""); [contradiction|].
  now rewrite Hh, Ht.
Qed.

Lemma extractId_unvalidated_witness :
  "robots.txt" <> "" /\ has_char "-" "robots.txt" = false /\
  test_alnum "robots.txt" = false /\
  extractId "robots.txt" = Some "robots.txt" /\
  extractId_validated "robots.txt" = None.
Proof.
  split; [discriminate|]. split; [reflexivity|]. split; [reflexivity|].
  apply (extractId_unvalidated "robots.txt"); [discriminate | reflexivity | reflexivity].
Defined.

(** ** Runs of the handler *)

Lemma createMetaResponse_shape (n a : JsValue) (resp : Response) :
  createMetaResponse n a = Returns resp ->
  status resp = 200%Z /\ headers resp = meta_headers.
Proof.
  unfold createMetaResponse.
  destruct (escapeHtml n); [|discriminate]. destruct (escapeHtml a); [|discriminate].
  cbn. now intros [= <-].
Qed.

Lemma createMetaResponse_completes (n : string) (a : JsValue) :
  convertible a = true -> exists resp, createMetaResponse (JString n) a = Returns resp.
Proof.
  unfold convertible, createMetaResponse. rewrite escapeHtml_string. cbn [obind].
  unfold escapeHtml. destruct (truthy a); cbn; [|eauto].
  destruct (to_string a); [cbn; eauto | discriminate].
Qed.

Lemma DOMAIN_MAP_truthy (h d : string) :
  DOMAIN_MAP !! h = Some d -> truthy (JString d) = true.
Proof.
  unfold DOMAIN_MAP. cbn [list_to_map foldr uncurry fst snd].
  intros E. apply lookup_insert_Some in E as [[_ <-]|[_ E]]; [reflexivity|].
  apply lookup_insert_Some in E as [[_ <-]|[_ E]]; [reflexivity|].
  now rewrite lookup_empty in E.
Qed.

Section Schemes.
#[local] Arguments append !s1 s2 : simpl nomatch.

Lemma scheme_rest_app (p r : string) :
  scheme_rest p = true -> scheme_rest (p +:+ r) = true.
Proof.
  induction p as [|c p IH]; [discriminate|]. simpl.
  destruct (Ascii.eqb c ":"); [reflexivity|].
  destruct (scheme_char c); [exact IH | discriminate].
Qed.

Lemma url_has_scheme_app (p r : string) :
  url_has_scheme p = true -> url_has_scheme (p +:+ r) = true.
Proof.
  destruct p as [|c p]; [discriminate|]. simpl. intros E.
  apply andb_prop in E. destruct E as [-> E]. now rewrite (scheme_rest_app _ r E).
Qed.

Lemma scheme_rest_fails_app (p r : string) :
  scheme_rest_fails p = true -> scheme_rest (p +:+ r) = false.
Proof.
  induction p as [|c p IH]; [discriminate|]. simpl.
  destruct (Ascii.eqb c ":"); [discriminate|].
  destruct (scheme_char c); [exact IH | reflexivity].
Qed.

Lemma no_scheme_app (p r : string) :
  no_scheme p = true -> url_has_scheme (p +:+ r) = false.
Proof.
  destruct p as [|c p]; [discriminate|]. simpl. intros E.
  destruct (is_alpha c); [|reflexivity]. cbn [negb orb andb] in *.
  now apply scheme_rest_fails_app.
Qed.

End Schemes.

Lemma DOMAIN_MAP_scheme (h : string) :
  url_has_scheme (default DEFAULT_REDIRECT (DOMAIN_MAP !! h)) = true.
Proof.
  destruct (DOMAIN_MAP !! h) as [d|] eqn:E; [|reflexivity]. cbn [default from_option].
  unfold DOMAIN_MAP in E. cbn [list_to_map foldr uncurry fst snd] in E.
  apply lookup_insert_Some in E as [[_ <-]|[_ E]]; [reflexivity|].
  apply lookup_insert_Some in E as [[_ <-]|[_ E]]; [reflexivity|].
  now rewrite lookup_empty in E.
Qed.

(** No inherited member is shadowed by an own key of [DOMAIN_MAP], and the
    text of none of them starts a URL. *)
Lemma Object_prototype_member (h member : string) :
  Object_prototype !! h = Some member ->
  DOMAIN_MAP !! h = None /\ no_scheme member = true.
Proof.
  unfold Object_prototype. cbn [list_to_map foldr uncurry fst snd]. intros E.
  repeat (apply lookup_insert_Some in E as [[<- <-]|[_ E]];
          [split; reflexivity|]).
  now rewrite lookup_empty in E.
Qed.

Section Handler.
Context `{JsRuntime}.
Local Open Scope run_scope.

Lemma cache_lookup_run (env : Env) (id : string) (t : Timers) :
  cache_lookup env id t =
  {| after := t;
     events := match META_CACHE env with
               | Some _ => [EvKvGet ("meta:" +:+ id)]
               | None => []
               end;
     completion := Returns (cached_page env id) |}.
Proof.
  unfold cache_lookup, cached_page.
  destruct (META_CACHE env) as [kv|]; [|reflexivity].
  rewrite guarded_run. unfold kv_get_json, bind, emit, lift, ret.
  cbn [after events completion].
  destruct (kv_get kv ("meta:" +:+ id)) as [cached|]; cbn -[createMetaResponse];
    [|reflexivity].
  destruct (truthy cached); cbn -[createMetaResponse]; [|reflexivity].
  destruct (get_prop cached "name"); cbn -[createMetaResponse]; [|reflexivity].
  destruct (get_prop cached "avatarLink"); cbn -[createMetaResponse]; [|reflexivity].
  destruct (createMetaResponse _ _); reflexivity.
Qed.

Lemma cache_store_run (env : Env) (id : string) (m : MetaData) (t : Timers) :
  cache_store env id m t =
  {| after := t;
     events := match META_CACHE env with
               | Some _ =>
                   if String.eqb (name m) "" then []
                   else [EvKvPut ("meta:" +:+ id) (JSON_stringify (MetaData_object m))
                           (CACHE_TTL CONFIG)]
               | None => []
               end;
     completion := Returns tt |}.
Proof.
  unfold cache_store. destruct (META_CACHE env) as [kv|]; [|reflexivity].
  cbn [truthy]. destruct (String.eqb (name m) ""); cbn [negb]; [reflexivity|].
  unfold try_catch, kv_put_text, bind, emit, lift, ret. cbn [after events completion].
  destruct (kv_put_fails kv _ _ _); reflexivity.
Qed.

Lemma serve_run (env : Env) (id : string) (t : Timers) :
  serve env id t =
  match cached_page env id with
  | Some resp =>
      {| after := t; events := [EvKvGet ("meta:" +:+ id)]; completion := Returns resp |}
  | None =>
      let r := resolved_record env id in
      {| after := timers_after_primary env id t;
         events :=
           match META_CACHE env with
           | Some _ => [EvKvGet ("meta:" +:+ id)]
           | None => []
           end ++
           events (fetchMetaData env id t) ++
           match META_CACHE env with
           | Some _ =>
               if String.eqb (name r) "" then []
               else [EvKvPut ("meta:" +:+ id) (JSON_stringify (MetaData_object r))
                       (CACHE_TTL CONFIG)]
           | None => []
           end;
         completion := createMetaResponse (JString (name r)) (avatarLink r) |}
  end.
Proof.
  unfold serve. unfold bind at 1. rewrite cache_lookup_run.
  cbn [after events completion].
  destruct (cached_page env id) as [resp|] eqn:Hc.
  - unfold ret. cbn [after events completion].
    unfold cached_page in Hc. destruct (META_CACHE env); [reflexivity | discriminate].
  - unfold bind. rewrite !fetchMetaData_run. cbn [after events completion].
    rewrite cache_store_run. cbn [after events completion]. unfold lift.
    cbn [after events completion]. cbv zeta. f_equal.
    now rewrite app_nil_r.
Qed.

Lemma fetch_visitor (request : Request) (env : Env) (t : Timers) :
  from_crawler request = false ->
  fetch request env t =
  {| after := t; events := [];
     completion :=
       match Object_prototype !! url_hostname request with
       | Some _ => Throws TypeError
       | None =>
           Returns {| status := 301;
                      headers :=
                        [("Location",
                          default DEFAULT_REDIRECT (DOMAIN_MAP !! url_hostname request) +:+
                          url_pathname request +:+ url_search request)];
                      body := "" |}
       end |}.
Proof.
  unfold from_crawler, fetch. intros ->. cbn [negb]. unfold lift, Response_redirect.
  destruct (Object_prototype !! url_hostname request) as [member|] eqn:Em.
  - destruct (Object_prototype_member _ _ Em) as [-> Hs].
    now rewrite (no_scheme_app _ _ Hs).
  - pose proof (DOMAIN_MAP_scheme (url_hostname request)) as Hs.
    destruct (DOMAIN_MAP !! url_hostname request) as [d|] eqn:E;
      cbn [default from_option Datatypes.id] in *.
    + rewrite (DOMAIN_MAP_truthy _ _ E). now rewrite (url_has_scheme_app _ _ Hs).
    + now rewrite (url_has_scheme_app _ _ Hs).
Qed.

Lemma fetch_root (request : Request) (env : Env) (t : Timers) :
  from_crawler request = true -> root_path request = true ->
  fetch request env t =
  {| after := t; events := [];
     completion := createMetaResponse (JString "Trang chủ") (JString "") |}.
Proof.
  unfold from_crawler, root_path, fetch. intros -> ->. reflexivity.
Qed.

Lemma fetch_no_id (request : Request) (env : Env) (t : Timers) :
  from_crawler request = true -> root_path request = false ->
  extractId (slice (url_pathname request) 1) = None ->
  fetch request env t =
  {| after := t; events := [];
     completion := createMetaResponse (JString "Không tìm thấy") (JString "") |}.
Proof.
  unfold from_crawler, root_path, fetch. intros -> -> ->. reflexivity.
Qed.

Lemma fetch_with_id (request : Request) (env : Env) (id : string) (t : Timers) :
  from_crawler request = true -> root_path request = false ->
  extractId (slice (url_pathname request) 1) = Some id ->
  fetch request env t = serve env id t.
Proof.
  unfold from_crawler, root_path, fetch. intros -> -> E. rewrite E.
  apply extractId_nonempty in E. cbn [negb].
  destruct (String.eqb_spec id ""); [contradiction | reflexivity].
Qed.

End Handler.

(** ** The handler's paths *)

Section Paths.
Context `{JsRuntime}.


(** C2, as the source has it. A crawler request for the root path gets,
    without any fetch or cache access, a 200 page whose title, [og:title]
    and [og:description] are the placeholder name [Trang chủ] and whose
    [og:image] is empty. *)
Theorem crawler_home_page (request : Request) (env : Env) (t : Timers) :
  from_crawler request = true -> root_path request = true ->
  exists resp,
    fetch request env t = {| after := t; events := []; completion := Returns resp |} /\
    status resp = 200%Z /\
    title_of (body resp) = Some "Trang chủ" /\
    meta_content "og:title" (body resp) = Some "Trang chủ" /\
    meta_content "og:description" (body resp) = Some "Trang chủ" /\
    meta_content "og:image" (body resp) = Some "".
Proof.
  intros Hc Hr. rewrite (fetch_root request env t Hc Hr).
  eexists. split; [reflexivity|]. repeat split; reflexivity.
Qed.

(** C4. On a crawler request with identifier [id], when the cache read of
    ["meta:" + id] gives a record, the handler returns the page rendered
    from that record and the run consists of that one cache read: no fetch
    from the primary or the backup source, no cache write, no timer. *)
Theorem cache_hit_short_circuit (request : Request) (env : Env) (t : Timers)
    (id : string) (kv : KVNamespace) (cached : JsValue) (n a : string) :
  from_crawler request = true -> root_path request = false ->
  extractId (slice (url_pathname request) 1) = Some id ->
  META_CACHE env = Some kv ->
  kv_get kv ("meta:" +:+ id) = KvJson cached ->
  is_record cached n a ->
  fetch request env t =
    {| after := t;
       events := [EvKvGet ("meta:" +:+ id)];
       completion := createMetaResponse (JString n) (JString a) |} /\
  createMetaResponse (JString n) (JString a) =
    Returns {| status := 200; headers := meta_headers;
               body := html_document (escape_text n) (escape_text a) |}.
Proof.
  intros Hc Hr Hid Hkv Hget (fields & -> & Hn & Ha).
  split; [|apply createMetaResponse_strings].
  rewrite (fetch_with_id request env id t Hc Hr Hid), serve_run.
  unfold cached_page. rewrite Hkv, Hget. cbn [truthy get_prop obind].
  rewrite Hn, Ha. cbn [default from_option Datatypes.id].
  now rewrite createMetaResponse_strings.
Qed.

(** C5. On a crawler request with identifier [id], with [r] the record the
    fallback chain produces: the run writes to the cache if and only if the
    cache is bound, its lookup was a miss and the name of [r] is non-empty;
    a write is the single [put] of key ["meta:" + id], value
    [JSON.stringify(r)] and TTL 86400; how [put] behaves does not change
    the completion of the handler; a hit and the empty record give no
    write. *)
Theorem cache_write_back (request : Request) (env : Env) (t : Timers)
    (id : string) (r : MetaData) :
  from_crawler request = true -> root_path request = false ->
  extractId (slice (url_pathname request) 1) = Some id ->
  completion (fetchMetaData env id (after (cache_lookup env id t))) = Returns r ->
  let run := fetch request env t in
  (puts_of (events run) <> [] <->
     is_Some (META_CACHE env) /\
     completion (cache_lookup env id t) = Returns None /\
     name r <> "") /\
  (puts_of (events run) <> [] ->
     puts_of (events run) =
       [("meta:" +:+ id, JSON_stringify (MetaData_object r), 86400%Z)]) /\
  (forall f, completion (fetch request (with_put_failures f env) t) = completion run) /\
  (forall resp, completion (cache_lookup env id t) = Returns (Some resp) ->
     completion run = Returns resp /\ puts_of (events run) = []) /\
  (name r = "" -> puts_of (events run) = []).
Proof.
  intros Hc Hr Hid Hchain run. subst run.
  rewrite fetchMetaData_run in Hchain. cbn [completion] in Hchain.
  injection Hchain as <-.
  assert (Hf : forall f, cached_page (with_put_failures f env) id = cached_page env id).
  { intros f. unfold cached_page, with_put_failures. cbn [META_CACHE].
    destruct (META_CACHE env); reflexivity. }
  assert (Hrec : forall f, resolved_record (with_put_failures f env) id =
                           resolved_record env id) by reflexivity.
  split; [|split; [|split; [|split]]].
  - rewrite (fetch_with_id request env id t Hc Hr Hid), serve_run, cache_lookup_run.
    cbn [completion]. destruct (cached_page env id) as [resp|].
    + cbn. split; [congruence | intros (_ & E & _); discriminate].
    + cbv zeta. cbn [events]. rewrite fetchMetaData_run. cbn [events].
      destruct (META_CACHE env) as [kv|].
      * destruct (String.eqb_spec (name (resolved_record env id)) "") as [E|E];
          destruct (primary_record env id); cbn;
          (split; [try congruence; intros _; repeat split; eauto
                  | try (intros (_ & _ & N); congruence); discriminate]).
      * destruct (primary_record env id); cbn;
          (split; [congruence | intros ([? E] & _); discriminate]).
  - rewrite (fetch_with_id request env id t Hc Hr Hid), serve_run.
    destruct (cached_page env id) as [resp|]; [cbn; congruence|].
    cbv zeta. cbn [events]. rewrite fetchMetaData_run. cbn [events].
    destruct (META_CACHE env) as [kv|];
      [destruct (String.eqb (name (resolved_record env id)) "")|];
      destruct (primary_record env id); cbn; congruence.
  - intros f.
    rewrite (fetch_with_id request env id t Hc Hr Hid).
    rewrite (fetch_with_id request (with_put_failures f env) id t Hc Hr Hid).
    rewrite !serve_run, Hf, Hrec. now destruct (cached_page env id).
  - intros resp. rewrite cache_lookup_run. cbn [completion]. intros [= E].
    rewrite (fetch_with_id request env id t Hc Hr Hid), serve_run, E. now cbn.
  - intros E.
    rewrite (fetch_with_id request env id t Hc Hr Hid), serve_run.
    destruct (cached_page env id) as [resp|]; [reflexivity|].
    cbv zeta. cbn [events]. rewrite fetchMetaData_run, E. cbn [events String.eqb].
    destruct (META_CACHE env); destruct (primary_record env id); reflexivity.
Qed.

Lemma cached_page_shape (env : Env) (id : string) (resp : Response) :
  cached_page env id = Some resp ->
  status resp = 200%Z /\ headers resp = meta_headers.
Proof.
  unfold cached_page. destruct (META_CACHE env) as [kv|]; [|discriminate].
  destruct (kv_get kv ("meta:" +:+ id)) as [cached|]; [|discriminate].
  destruct (truthy cached); [|discriminate].
  destruct (get_prop cached "name") as [cname|]; [|discriminate].
  destruct (get_prop cached "avatarLink") as [clink|]; [|discriminate].
  cbn [obind]. destruct (createMetaResponse cname clink) as [r|] eqn:E; [|discriminate].
  intros [= <-]. exact (createMetaResponse_shape _ _ _ E).
Qed.

(** C8, as the source has it. Whenever the handler answers a crawler it
    answers with status 200 and the three headers, on every path and
    whatever the cache and the sources do; and it does answer unless the
    avatar link that the fallback chain resolved for the request's
    identifier cannot be converted to text. *)
Theorem crawler_status (request : Request) (env : Env) (t : Timers) :
  from_crawler request = true ->
  (forall resp, completion (fetch request env t) = Returns resp ->
     status resp = 200%Z /\
     headers resp =
       [ ("Content-Type", "text/html;charset=UTF-8");
         ("Cache-Control", "public, max-age=86400, s-maxage=86400");
         ("X-Robots-Tag", "noindex, nofollow") ]) /\
  ((forall id, extractId (slice (url_pathname request) 1) = Some id ->
               convertible (avatarLink (resolved_record env id)) = true) ->
   exists resp, completion (fetch request env t) = Returns resp).
Proof.
  intros Hc. destruct (root_path request) eqn:Hr.
  { rewrite (fetch_root request env t Hc Hr). cbn [completion].
    split; [apply createMetaResponse_shape | intros _; now eexists]. }
  destruct (extractId (slice (url_pathname request) 1)) as [id|] eqn:Hid.
  2:{ rewrite (fetch_no_id request env t Hc Hr Hid). cbn [completion].
      split; [apply createMetaResponse_shape | intros _; now eexists]. }
  rewrite (fetch_with_id request env id t Hc Hr Hid), serve_run.
  destruct (cached_page env id) as [page|] eqn:Hp; cbv zeta; cbn [completion].
  - split; [intros resp [= <-]; exact (cached_page_shape _ _ _ Hp) | eauto].
  - split; [apply createMetaResponse_shape|].
    intros Hconv. apply createMetaResponse_completes. now apply Hconv.
Qed.

(** C10, as the source has it. On a crawler request with an identifier,
    when no cache is bound the run is the run of the fallback chain alone
    (fetches only: no cache read, no cache write) and the handler completes
    as rendering the resolved record does: with a 200 page whenever the
    resolved avatar link can be converted to text. *)
Theorem unbound_cache (request : Request) (env : Env) (t : Timers) (id : string) :
  from_crawler request = true -> root_path request = false ->
  extractId (slice (url_pathname request) 1) = Some id ->
  META_CACHE env = None ->
  let r := resolved_record env id in
  completion (fetchMetaData env id t) = Returns r /\
  after (fetch request env t) = after (fetchMetaData env id t) /\
  events (fetch request env t) = events (fetchMetaData env id t) /\
  forallb is_fetch (events (fetch request env t)) = true /\
  completion (fetch request env t) =
    createMetaResponse (JString (name r)) (avatarLink r) /\
  (forall resp, completion (fetch request env t) = Returns resp ->
                status resp = 200%Z) /\
  (convertible (avatarLink r) = true ->
   exists resp, completion (fetch request env t) = Returns resp /\
                status resp = 200%Z).
Proof.
  intros Hc Hr Hid Hkv r.
  rewrite (fetch_with_id request env id t Hc Hr Hid), serve_run.
  unfold cached_page. rewrite Hkv. cbv zeta. cbn [after events completion app].
  rewrite fetchMetaData_run. cbn [after events completion]. rewrite app_nil_r.
  fold r. repeat split.
  - now destruct (primary_record env id).
  - intros resp E. now apply createMetaResponse_shape in E.
  - intros Hconv. destruct (createMetaResponse_completes (name r) _ Hconv) as [resp E].
    exists resp. split; [exact E | now apply createMetaResponse_shape in E].
Qed.

(** C9. The timer armed for the primary request is still armed, with its
    3000 ms delay, when [fetchMetaData] completes, whenever the network
    rejected that request before the delay elapsed: the [catch] branch is
    reached without [clearTimeout]. *)
Theorem timer_left_armed (env : Env) (id : string) (t : Timers) :
  rejected_in_time (net env (primary_url id)) = true ->
  armed (after (fetchMetaData env id t)) !! next_timer t = Some 3000%Z.
Proof.
  intros E. rewrite fetchMetaData_run. cbn [after]. unfold timers_after_primary.
  rewrite E. cbn [armed]. apply lookup_insert_eq.
Qed.

(** On the two other ways the primary request ends (it resolves, or the
    timeout elapses and the timer fires) the timer is gone. *)
Lemma timer_gone (env : Env) (id : string) (t : Timers) :
  rejected_in_time (net env (primary_url id)) = false ->
  armed (after (fetchMetaData env id t)) !! next_timer t = None.
Proof.
  intros E. rewrite fetchMetaData_run. cbn [after]. unfold timers_after_primary.
  rewrite E. cbn [armed]. apply lookup_delete_eq.
Qed.

End Paths.

(** ** The statements at concrete requests *)



Lemma crawler_home_page_witness :
  @from_crawler ascii_runtime (crawler_request "/") = true /\
  root_path (crawler_request "/") = true /\
  exists resp,
    @fetch ascii_runtime (crawler_request "/") env_primary idle =
      {| after := idle; events := []; completion := Returns resp |} /\
    title_of (body resp) = Some "Trang chủ".
Proof.
  split; [reflexivity|]. split; [reflexivity|].
  destruct (@crawler_home_page ascii_runtime (crawler_request "/") env_primary idle)
    as (resp & Hrun & _ & Htitle & _); [reflexivity | reflexivity |].
  exists resp. split; [exact Hrun | exact Htitle].
Defined.

(** C2 as stated fails: the page served for the root path has a title, and
    it is not the empty string. *)
Lemma crawler_home_page_not_empty :
  @from_crawler ascii_runtime (crawler_request "/") = true /\
  root_path (crawler_request "/") = true /\
  ~ exists resp,
      completion (@fetch ascii_runtime (crawler_request "/") env_offline idle) =
        Returns resp /\
      status resp = 200%Z /\
      title_of (body resp) = Some "" /\
      meta_content "og:title" (body resp) = Some "" /\
      meta_content "og:description" (body resp) = Some "".
Proof.
  split; [reflexivity|]. split; [reflexivity|].
  intros (resp & E & _ & T & _).
  vm_compute in E. injection E as <-. vm_compute in T. discriminate T.
Qed.

Lemma cache_hit_short_circuit_witness :
  @from_crawler ascii_runtime (crawler_request "/breaking-news-abc123") = true /\
  events (@fetch ascii_runtime (crawler_request "/breaking-news-abc123")
            env_cached idle) = [EvKvGet "meta:abc123"] /\
  completion (@fetch ascii_runtime (crawler_request "/breaking-news-abc123")
                env_cached idle) =
    createMetaResponse (JString "Tom & Jerry") (JString "http://x/a.png?w=1&h=2").
Proof.
  split; [reflexivity|].
  destruct (@cache_hit_short_circuit ascii_runtime
              (crawler_request "/breaking-news-abc123") env_cached idle "abc123"
              (kv_holding "meta:abc123"
                 (JObject [("name", JString "Tom & Jerry");
                           ("avatarLink", JString "http://x/a.png?w=1&h=2")]))
              (JObject [("name", JString "Tom & Jerry");
                        ("avatarLink", JString "http://x/a.png?w=1&h=2")])
              "Tom & Jerry" "http://x/a.png?w=1&h=2")
    as [Hrun _].
  - reflexivity.
  - reflexivity.
  - reflexivity.
  - reflexivity.
  - reflexivity.
  - eexists. split; [reflexivity|]. split; reflexivity.
  - rewrite Hrun. split; reflexivity.
Defined.

Lemma cache_write_back_witness :
  @from_crawler ascii_runtime (crawler_request "/breaking-news-abc123") = true /\
  completion (@fetchMetaData ascii_runtime env_primary "abc123" idle) =
    Returns {| name := "Win"; avatarLink := JString "http://x/img.png" |} /\
  puts_of (events (@fetch ascii_runtime (crawler_request "/breaking-news-abc123")
                     env_primary idle)) =
    [("meta:abc123",
      stringify (MetaData_object
                   {| name := "Win"; avatarLink := JString "http://x/img.png" |}),
      86400%Z)].
Proof.
  split; [reflexivity|]. split; [reflexivity|].
  destruct (@cache_write_back ascii_runtime
              (crawler_request "/breaking-news-abc123") env_primary idle "abc123"
              {| name := "Win"; avatarLink := JString "http://x/img.png" |})
    as (Hiff & Hput & _).
  - reflexivity.
  - reflexivity.
  - reflexivity.
  - reflexivity.
  - apply Hput. apply Hiff. split; [now eexists|]. split; [reflexivity | discriminate].
Defined.

Lemma crawler_status_witness :
  @from_crawler ascii_runtime (crawler_request "/breaking-news-abc123") = true /\
  exists resp,
    completion (@fetch ascii_runtime (crawler_request "/breaking-news-abc123")
                  env_primary idle) = Returns resp /\
    status resp = 200%Z.
Proof.
  split; [reflexivity|].
  destruct (@crawler_status ascii_runtime
              (crawler_request "/breaking-news-abc123") env_primary idle)
    as [Hshape Hanswer]; [reflexivity|].
  destruct Hanswer as [resp E].
  - intros id Hid. vm_compute in Hid. injection Hid as <-. reflexivity.
  - exists resp. split; [exact E | exact (proj1 (Hshape resp E))].
Defined.

(** C8 as stated fails: the primary source answers with an avatar link
    that is an object with a member [toString]; the record is cached, its
    rendering throws, and the handler gives no response at all. *)
Lemma crawler_status_fails :
  @from_crawler ascii_runtime (crawler_request "/breaking-news-abc123") = true /\
  completion (@fetch ascii_runtime (crawler_request "/breaking-news-abc123")
                env_odd_link_cached idle) = Throws TypeError /\
  ~ exists resp,
      completion (@fetch ascii_runtime (crawler_request "/breaking-news-abc123")
                    env_odd_link_cached idle) = Returns resp /\
      status resp = 200%Z.
Proof.
  split; [reflexivity|]. split; [reflexivity|].
  intros (resp & E & _). vm_compute in E. discriminate E.
Qed.

Lemma unbound_cache_witness :
  META_CACHE env_offline = None /\
  events (@fetch ascii_runtime (crawler_request "/breaking-news-abc123")
            env_offline idle) =
    [EvFetch "https://apisport.vbonews.com/News/news-detailbasic?id=abc123";
     EvFetch "https://file.lifenews247.com/sportnews/backup/abc123.json"] /\
  exists resp,
    completion (@fetch ascii_runtime (crawler_request "/breaking-news-abc123")
                  env_offline idle) = Returns resp /\
    status resp = 200%Z.
Proof.
  split; [reflexivity|].
  destruct (@unbound_cache ascii_runtime
              (crawler_request "/breaking-news-abc123") env_offline idle "abc123")
    as (_ & _ & Hev & _ & _ & _ & Hanswer).
  - reflexivity.
  - reflexivity.
  - reflexivity.
  - reflexivity.
  - split; [rewrite Hev; reflexivity | apply Hanswer; reflexivity].
Defined.

(** C10 as stated fails: with no cache bound and the same answer of the
    primary source, the handler throws instead of returning the 200 page. *)
Lemma unbound_cache_fails :
  META_CACHE env_odd_link = None /\
  @from_crawler ascii_runtime (crawler_request "/breaking-news-abc123") = true /\
  extractId (slice (url_pathname (crawler_request "/breaking-news-abc123")) 1) =
    Some "abc123" /\
  test_alnum "abc123" = true /\
  forallb is_fetch
    (events (@fetch ascii_runtime (crawler_request "/breaking-news-abc123")
               env_odd_link idle)) = true /\
  ~ exists resp,
      completion (@fetch ascii_runtime (crawler_request "/breaking-news-abc123")
                    env_odd_link idle) = Returns resp /\
      status resp = 200%Z.
Proof.
  repeat (split; [reflexivity|]).
  intros (resp & E & _). vm_compute in E. discriminate E.
Qed.

Lemma timer_left_armed_witness :
  rejected_in_time (net env_offline (primary_url "abc123")) = true /\
  armed (after (@fetchMetaData ascii_runtime env_offline "abc123" idle)) !! 0%nat =
    Some 3000%Z.
Proof.
  split; [reflexivity|].
  apply (@timer_left_armed ascii_runtime env_offline "abc123" idle). reflexivity.
Defined.

(** The slug of C1 goes on unvalidated into both source URLs. *)
Lemma unvalidated_id_reaches_sources :
  events (@fetch ascii_runtime (crawler_request "/robots.txt") env_offline idle) =
    [EvFetch "https://apisport.vbonews.com/News/news-detailbasic?id=robots.txt";
     EvFetch "https://file.lifenews247.com/sportnews/backup/robots.txt.json"].
Proof. reflexivity. Qed.

(** The timer of C9 is still armed when the handler has answered. *)
Lemma timer_outlives_handler :
  armed (after (@fetch ascii_runtime (crawler_request "/breaking-news-abc123")
                  env_offline idle)) = {[ 0%nat := 3000%Z ]} /\
  armed (after (@fetch ascii_runtime (crawler_request "/breaking-news-abc123")
                  env_primary idle)) = ∅.
Proof. split; reflexivity. Qed.

(** * Further properties of the worker *)

(** ** The classifier *)

Section Substrings.
#[local] Arguments append !s1 s2 : simpl nomatch.

Lemma strip_prefix_sound (m s r : string) : strip_prefix m s = Some r -> s = m +:+ r.
Proof.
  revert s. induction m as [|a m IH]; intros s E; simpl in E.
  - now injection E as <-.
  - destruct s as [|b s]; [discriminate|].
    destruct (Ascii.eqb_spec a b) as [<-|]; [|discriminate].
    simpl. now rewrite (IH _ E).
Qed.

Lemma strip_prefix_self (m r : string) : strip_prefix m (m +:+ r) = Some r.
Proof.
  induction m as [|a m IH]; simpl; [reflexivity|]. now rewrite Ascii.eqb_refl.
Qed.

(** [includes] is the substring relation. *)
Lemma includes_spec (s sub : string) :
  includes s sub = true <-> exists pre post, s = pre +:+ sub +:+ post.
Proof.
  split.
  - induction s as [|a s IH]; cbn [includes]; intros E.
    + rewrite orb_false_r in E. unfold starts_with in E.
      destruct (strip_prefix sub "") as [r|] eqn:S; [|discriminate].
      exists "", r. exact (strip_prefix_sound _ _ _ S).
    + apply orb_prop in E. destruct E as [E|E].
      * unfold starts_with in E.
        destruct (strip_prefix sub (String a s)) as [r|] eqn:S; [|discriminate].
        exists "", r. exact (strip_prefix_sound _ _ _ S).
      * destruct (IH E) as (pre & post & ->). now exists (String a pre), post.
  - intros (pre & post & ->). induction pre as [|a pre IH].
    + simpl append. destruct (sub +:+ post) eqn:E; cbn [includes];
        unfold starts_with; rewrite <- E, strip_prefix_self; reflexivity.
    + simpl append. cbn [includes]. rewrite IH. apply orb_true_r.
Qed.

(** X1. A user agent is classified as a crawler exactly when it contains
    [facebook] or [facebot]; the test for [facebookexternalhit] adds
    nothing. *)
Theorem isFacebookCrawler_substring (userAgent : string) :
  isFacebookCrawler userAgent = true <->
  exists pre post,
    userAgent = pre +:+ "facebook" +:+ post \/ userAgent = pre +:+ "facebot" +:+ post.
Proof.
  unfold isFacebookCrawler. split.
  - intros E. apply orb_prop in E. destruct E as [E|E];
      [apply orb_prop in E; destruct E as [E|E]|].
    + apply includes_spec in E. destruct E as (pre & post & ->). eauto.
    + apply includes_spec in E. destruct E as (pre & post & ->).
      exists pre, ("externalhit" +:+ post). now left.
    + apply includes_spec in E. destruct E as (pre & post & ->). eauto.
  - intros (pre & post & [->| ->]).
    + assert (E : includes (pre +:+ "facebook" +:+ post) "facebook" = true)
        by (apply includes_spec; eauto).
      now rewrite E.
    + assert (E : includes (pre +:+ "facebot" +:+ post) "facebot" = true)
        by (apply includes_spec; eauto).
      rewrite E. apply orb_true_r.
Qed.

(** ** Escaping *)

Lemma escape_text_one (a : ascii) : escape_text (String a "") = escape_char a.
Proof.
  destruct (special_cases a) as [->|[->|[->|[->|[->|E]]]]]; try reflexivity.
  rewrite (escape_text_plain a E). unfold escape_char.
  apply special_false in E. destruct E as (-> & -> & -> & -> & ->). reflexivity.
Qed.

Lemma escape_text_step (a : ascii) (s : string) :
  escape_text (String a s) = escape_char a +:+ escape_text s.
Proof. now rewrite escape_text_cons, escape_text_one. Qed.

Lemma escape_text_each (s : string) : escape_text s = escape_each s.
Proof.
  induction s as [|a s IH]; [reflexivity|]. rewrite escape_text_step, IH. reflexivity.
Qed.

(** X6. The five replacements applied one after the other give what one
    pass gives that replaces every character on its own: no replacement
    rewrites what an earlier one produced. *)
Theorem escape_text_one_pass (s : string) : escape_text s = escape_each s.
Proof.
  induction s as [|a s IH]; [reflexivity|].
  rewrite escape_text_cons, escape_text_one, IH. reflexivity.
Qed.

Lemma escape_char_length (a : ascii) :
  String.length (escape_char a) = 1%nat /\ special a = false \/
  (4 <= String.length (escape_char a))%nat /\ special a = true.
Proof.
  destruct (special_cases a) as [->|[->|[->|[->|[->|E]]]]];
    try (right; split; [cbn; lia | reflexivity]).
  left. split; [|exact E]. unfold escape_char.
  apply special_false in E. destruct E as (-> & -> & -> & -> & ->). reflexivity.
Qed.

Lemma escape_each_length (s : string) :
  (String.length s <= String.length (escape_each s))%nat.
Proof.
  induction s as [|a s IH]; [reflexivity|].
  cbn [escape_each String.length]. rewrite length_append.
  destruct (escape_char_length a) as [[E _]|[E _]]; lia.
Qed.

(** X7. Escaping leaves a text as it is exactly when the text holds none
    of the five characters. *)
Theorem escape_text_fixed (s : string) :
  escape_text s = s <-> any_special s = false.
Proof.
  rewrite escape_text_each. split.
  - induction s as [|a s IH]; [reflexivity|]. intros E.
    cbn [escape_each] in E. cbn [any_special].
    destruct (escape_char_length a) as [[L Hs]|[L Hs]].
    + rewrite Hs. cbn [orb]. apply IH.
      unfold escape_char in E. apply special_false in Hs.
      destruct Hs as (E1 & E2 & E3 & E4 & E5).
      rewrite E1, E2, E3, E4, E5 in E. simpl in E. now injection E.
    + apply (f_equal String.length) in E. rewrite length_append in E.
      cbn [String.length] in E. pose proof (escape_each_length s). lia.
  - induction s as [|a s IH]; [reflexivity|]. cbn [any_special]. intros E.
    apply orb_false_elim in E. destruct E as [E1 E2].
    cbn [escape_each]. rewrite (IH E2), <- escape_text_one, (escape_text_plain a E1).
    reflexivity.
Qed.

(** What [escapeHtml] returns is escaped text. *)
Lemma escapeHtml_escaped (v : JsValue) (s : string) :
  escapeHtml v = Returns s -> exists raw, s = escape_text raw.
Proof.
  unfold escapeHtml. destruct (truthy v); cbn [negb].
  - destruct (to_string v) as [raw|]; [|discriminate]. cbn. intros [= <-]. eauto.
  - intros [= <-]. now exists "".
Qed.

Lemma escapeHtml_clean (v : JsValue) (s : string) (c : ascii) :
  escapeHtml v = Returns s -> special c = true -> c <> "&"%char -> has_char c s = false.
Proof.
  intros E Hc Hamp. destruct (escapeHtml_escaped v s E) as [raw ->].
  now apply escape_text_clean.
Qed.

(** X5. Whatever value [escapeHtml] is given (a string, a number, an array,
    an object), the text it returns holds no [<], no [>] and neither
    quote. *)
Theorem escapeHtml_safe (v : JsValue) (s : string) :
  escapeHtml v = Returns s ->
  has_char "<" s = false /\ has_char ">" s = false /\
  has_char dq s = false /\ has_char "'" s = false.
Proof.
  intros E. destruct (escapeHtml_escaped v s E) as [raw ->].
  repeat split; now apply escape_text_clean.
Qed.

Lemma escapeHtml_safe_witness :
  escapeHtml (JArray [JString "<b>"; JNull; JNumber "7"; JString "'x'"]) =
    Returns "&lt;b&gt;,,7,&#39;x&#39;" /\
  has_char "<" "&lt;b&gt;,,7,&#39;x&#39;" = false.
Proof.
  split; [reflexivity|].
  exact (proj1 (escapeHtml_safe
                  (JArray [JString "<b>"; JNull; JNumber "7"; JString "'x'"])
                  "&lt;b&gt;,,7,&#39;x&#39;" eq_refl)).
Defined.

End Substrings.

(** ** Identifiers *)

Lemma all_alnum_no_hyphen (s : string) : all_alnum s = true -> has_char "-" s = false.
Proof.
  induction s as [|a s IH]; [reflexivity|]. cbn [all_alnum has_char]. intros E.
  apply andb_prop in E. destruct E as [Ea Es]. rewrite (IH Es), orb_false_r.
  destruct (Ascii.eqb_spec a "-") as [->|]; [discriminate Ea | reflexivity].
Qed.

Lemma test_alnum_no_hyphen (s : string) : test_alnum s = true -> has_char "-" s = false.
Proof. destruct s; [discriminate | apply all_alnum_no_hyphen]. Qed.

Lemma append_hyphen_nonempty (pre suf : string) :
  String.eqb (pre +:+ String "-" suf) "" = false.
Proof. now destruct pre. Qed.

Lemma extractId_split (pre suf : string) :
  has_char "-" suf = false ->
  extractId (pre +:+ String "-" suf) = if test_alnum suf then Some suf else None.
Proof.
  intros E. unfold extractId. rewrite append_hyphen_nonempty. cbv zeta.
  rewrite (lastIndexOf_split _ _ E).
  destruct (Z.eqb_spec (Z.of_nat (String.length pre)) (-1)); [lia|].
  now rewrite slice_split.
Qed.

(** X2. From a slug [<text>-<id>] whose last part [<id>] is a non-empty
    run of letters and digits, [extractId] returns exactly [<id>], whatever
    the text before the hyphen is (other hyphens included). *)
Theorem extractId_last_segment (text id : string) :
  test_alnum id = true -> extractId (text +:+ "-" +:+ id) = Some id.
Proof.
  intros E. change (text +:+ "-" +:+ id) with (text +:+ String "-" id).
  now rewrite (extractId_split _ _ (test_alnum_no_hyphen _ E)), E.
Qed.

Lemma extractId_last_segment_witness :
  test_alnum "abc123" = true /\
  extractId ("breaking-news" +:+ "-" +:+ "abc123") = Some "abc123".
Proof.
  split; [reflexivity|]. apply (extractId_last_segment "breaking-news" "abc123").
  reflexivity.
Defined.

(** X3. A slug with a hyphen whose part after the last hyphen is empty or
    holds a character that is neither a letter nor a digit gives no
    identifier. *)
Theorem extractId_rejects (text last : string) :
  has_char "-" last = false -> test_alnum last = false ->
  extractId (text +:+ "-" +:+ last) = None.
Proof.
  intros Hh Ht. change (text +:+ "-" +:+ last) with (text +:+ String "-" last).
  now rewrite (extractId_split _ _ Hh), Ht.
Qed.

Lemma extractId_rejects_witness :
  has_char "-" "ab_12" = false /\ test_alnum "ab_12" = false /\
  extractId ("title" +:+ "-" +:+ "ab_12") = None /\
  extractId ("title" +:+ "-" +:+ "") = None.
Proof.
  split; [reflexivity|]. split; [reflexivity|]. split.
  - apply (extractId_rejects "title" "ab_12"); reflexivity.
  - apply (extractId_rejects "title" ""); reflexivity.
Defined.

(** X4. Every identifier that [extractId] returns is non-empty, has no
    hyphen, is the end of the slug, and is its own identifier. *)
Theorem extractId_result (slug id : string) :
  extractId slug = Some id ->
  id <> "" /\ has_char "-" id = false /\
  (exists before, slug = before +:+ id) /\
  extractId id = Some id.
Proof.
  intros E. pose proof (extractId_nonempty _ _ E) as Hne.
  assert (Hh : has_char "-" id = false /\ exists before, slug = before +:+ id).
  { rewrite extractId_cases in E. destruct (String.eqb slug ""); [discriminate|].
    destruct (has_char "-" slug) eqn:Hs.
    - destruct (test_alnum (last_segment slug)) eqn:T; [|discriminate].
      injection E as <-. destruct (split_last_hyphen slug Hs) as (pre & E1 & E2).
      split; [exact E2|]. exists (pre +:+ "-"). now rewrite append_assoc.
    - injection E as <-. split; [exact Hs | now exists ""]. }
  destruct Hh as [Hh Hsuf]. repeat split; try assumption.
  rewrite extractId_cases, Hh.
  destruct (String.eqb_spec id ""); [contradiction | reflexivity].
Qed.

Lemma extractId_result_witness :
  extractId "a-b-c9" = Some "c9" /\ extractId "c9" = Some "c9".
Proof.
  split; [reflexivity|].
  exact (proj2 (proj2 (proj2 (extractId_result "a-b-c9" "c9" eq_refl)))).
Defined.

(** ** Pages *)

(** [String(v)] throws nothing but a TypeError. *)
Fixpoint to_string_error (v : JsValue) (e : JsError) {struct v} :
  to_string v = Throws e -> e = TypeError.
Proof.
  destruct v as [| | b | num | s | items | fields]; cbn [to_string];
    try discriminate.
  - destruct b; discriminate.
  - revert e. induction items as [|x rest IH]; intros e; [discriminate|].
    destruct (nullish x).
    + cbn [obind]. destruct rest as [|y rest']; [discriminate|].
      match goal with
      | |- obind ?j _ = _ -> _ => destruct j as [sr|e'] eqn:EJ
      end; cbn [obind]; [discriminate|].
      intros E. injection E as <-. exact (IH _ eq_refl).
    + destruct (to_string x) as [sx|e'] eqn:Ex; cbn [obind].
      * destruct rest as [|y rest']; [discriminate|].
        match goal with
        | |- obind ?j _ = _ -> _ => destruct j as [sr|e''] eqn:EJ
        end; cbn [obind]; [discriminate|].
        intros E. injection E as <-. exact (IH _ eq_refl).
      * intros E. injection E as <-. exact (to_string_error x e' Ex).
  - destruct (lookup_field "toString" fields); [|discriminate].
    now intros [= <-].
Qed.

Section FixedElements.
#[local] Arguments append !s1 s2 : simpl nomatch.
Variables safeName safeImage : string.
Hypothesis name_lt : has_char "<" safeName = false.
Hypothesis image_lt : has_char "<" safeImage = false.

Lemma og_type_of_page :
  meta_content "og:type" (html_document safeName safeImage) = Some "article".
Proof.
  unfold meta_content, html_document.
  rewrite (text_after_skip (meta_marker "og:type") html_head _ eq_refl).
  rewrite (text_after_skip (meta_marker "og:type") safeName _
             (never_starts_free "<" _ _ name_lt)).
  rewrite (text_after_skip (meta_marker "og:type") html_to_og_title _ eq_refl).
  rewrite (text_after_skip (meta_marker "og:type") safeName _
             (never_starts_free "<" _ _ name_lt)).
  rewrite (text_after_skip (meta_marker "og:type") html_to_og_description _ eq_refl).
  rewrite (text_after_skip (meta_marker "og:type") safeName _
             (never_starts_free "<" _ _ name_lt)).
  rewrite (text_after_skip (meta_marker "og:type") html_to_og_image _ eq_refl).
  rewrite (text_after_skip (meta_marker "og:type") safeImage _
             (never_starts_free "<" _ _ image_lt)).
  reflexivity.
Qed.

Lemma fb_app_id_of_page :
  meta_content "fb:app_id" (html_document safeName safeImage) = Some "".
Proof.
  unfold meta_content, html_document.
  rewrite (text_after_skip (meta_marker "fb:app_id") html_head _ eq_refl).
  rewrite (text_after_skip (meta_marker "fb:app_id") safeName _
             (never_starts_free "<" _ _ name_lt)).
  rewrite (text_after_skip (meta_marker "fb:app_id") html_to_og_title _ eq_refl).
  rewrite (text_after_skip (meta_marker "fb:app_id") safeName _
             (never_starts_free "<" _ _ name_lt)).
  rewrite (text_after_skip (meta_marker "fb:app_id") html_to_og_description _ eq_refl).
  rewrite (text_after_skip (meta_marker "fb:app_id") safeName _
             (never_starts_free "<" _ _ name_lt)).
  rewrite (text_after_skip (meta_marker "fb:app_id") html_to_og_image _ eq_refl).
  rewrite (text_after_skip (meta_marker "fb:app_id") safeImage _
             (never_starts_free "<" _ _ image_lt)).
  reflexivity.
Qed.

End FixedElements.

(** X8. Whatever two values a page is rendered from, each element of the
    page reads back as what was put in it: the title, [og:title] and
    [og:description] as the escaped name, [og:image] as the escaped avatar
    link, [og:type] as [article] and [fb:app_id] as empty. Text that comes
    in through the name or the link never reaches another element. *)
Theorem createMetaResponse_elements (n a : JsValue) (resp : Response) :
  createMetaResponse n a = Returns resp ->
  exists safeName safeImage,
    escapeHtml n = Returns safeName /\ escapeHtml a = Returns safeImage /\
    title_of (body resp) = Some safeName /\
    meta_content "og:title" (body resp) = Some safeName /\
    meta_content "og:description" (body resp) = Some safeName /\
    meta_content "og:image" (body resp) = Some safeImage /\
    meta_content "og:type" (body resp) = Some "article" /\
    meta_content "fb:app_id" (body resp) = Some "".
Proof.
  unfold createMetaResponse.
  destruct (escapeHtml n) as [sn|] eqn:En; [|discriminate].
  destruct (escapeHtml a) as [sa|] eqn:Ea; [|discriminate].
  cbn [obind]. intros [= <-]. cbn [body].
  assert (Hn1 : has_char "<" sn = false) by now apply (escapeHtml_clean n).
  assert (Hn2 : has_char dq sn = false) by now apply (escapeHtml_clean n).
  assert (Ha1 : has_char "<" sa = false) by now apply (escapeHtml_clean a).
  assert (Ha2 : has_char dq sa = false) by now apply (escapeHtml_clean a).
  exists sn, sa.
  rewrite title_of_page, og_title_of_page, og_description_of_page, og_image_of_page,
    og_type_of_page, fb_app_id_of_page by assumption.
  repeat split; reflexivity.
Qed.

Lemma createMetaResponse_elements_witness :
  exists resp,
    createMetaResponse (JString "</title><meta property='og:type' content='video'>")
      (JNumber "7") = Returns resp /\
    meta_content "og:type" (body resp) = Some "article" /\
    meta_content "og:image" (body resp) = Some "7".
Proof.
  eexists. split; [reflexivity|].
  destruct (createMetaResponse_elements
              (JString "</title><meta property='og:type' content='video'>")
              (JNumber "7") _ eq_refl)
    as (sn & sa & _ & Ea & _ & _ & _ & Hi & Ht & _).
  split; [exact Ht|]. rewrite Hi. injection Ea as <-. reflexivity.
Defined.

(** X9. [createMetaResponse] completes exactly when each of its two
    arguments is falsy or can be converted by [String()]; when it does not
    complete, what it throws is a TypeError. *)
Theorem createMetaResponse_completion (n a : JsValue) :
  ((exists resp, createMetaResponse n a = Returns resp) <->
   renderable n = true /\ renderable a = true) /\
  (forall e, createMetaResponse n a = Throws e -> e = TypeError).
Proof.
  assert (Hesc : forall v,
            (renderable v = true -> exists s, escapeHtml v = Returns s) /\
            (forall e, escapeHtml v = Throws e -> renderable v = false /\ e = TypeError)).
  { intros v. unfold renderable, convertible, escapeHtml.
    destruct (truthy v); cbn [negb orb].
    - destruct (to_string v) as [s|e'] eqn:E; cbn [obind].
      + split; [eauto | discriminate].
      + split; [discriminate|]. intros e [= <-].
        split; [reflexivity | exact (to_string_error v e' E)].
    - split; [eauto | discriminate]. }
  unfold createMetaResponse. split; [split|].
  - intros [resp E].
    destruct (escapeHtml n) as [sn|en] eqn:En; [|discriminate].
    destruct (escapeHtml a) as [sa|ea] eqn:Ea; [|discriminate].
    split.
    + destruct (renderable n) eqn:R; [reflexivity|].
      unfold renderable, convertible, escapeHtml in *.
      destruct (truthy n); [|discriminate]. destruct (to_string n); discriminate.
    + destruct (renderable a) eqn:R; [reflexivity|].
      unfold renderable, convertible, escapeHtml in *.
      destruct (truthy a); [|discriminate]. destruct (to_string a); discriminate.
  - intros [Rn Ra].
    destruct (proj1 (Hesc n) Rn) as [sn ->]. destruct (proj1 (Hesc a) Ra) as [sa ->].
    cbn [obind]. eauto.
  - intros e. destruct (escapeHtml n) as [sn|en] eqn:En; cbn [obind].
    + destruct (escapeHtml a) as [sa|ea] eqn:Ea; cbn [obind]; [discriminate|].
      intros [= <-]. exact (proj2 (proj2 (Hesc a) ea Ea)).
    + intros [= <-]. exact (proj2 (proj2 (Hesc n) en En)).
Qed.

(** ** The fallback chain *)

Lemma slice_first (c : ascii) (s : string) : slice (String c s) 1 = s.
Proof.
  unfold slice. cbn [String.length]. change (1 <? 0)%Z with false. cbv iota.
  rewrite Z.min_l by lia. reflexivity.
Qed.

Lemma content_path_not_root (text last : string) :
  String.eqb ("/" +:+ text +:+ "-" +:+ last) "/" ||
  String.eqb ("/" +:+ text +:+ "-" +:+ last) "" = false.
Proof.
  change ("/" +:+ text +:+ "-" +:+ last) with (String "/" (text +:+ String "-" last)).
  cbn [String.eqb]. rewrite Ascii.eqb_refl, append_hyphen_nonempty. reflexivity.
Qed.

Lemma DOMAIN_MAP_lookup (h : string) :
  default DEFAULT_REDIRECT (DOMAIN_MAP !! h) =
  if String.eqb h "tuneblast.us" then "https://anhus.livextop.com"
  else "https://topnewsus.feji.io".
Proof.
  unfold DOMAIN_MAP. cbn [list_to_map foldr uncurry fst snd].
  destruct (String.eqb_spec h "tuneblast.us") as [->|Hn]; [reflexivity|].
  destruct (decide (h = "topnews-redirect.takhanhthient3.workers.dev")) as [->|Hn'].
  - now rewrite lookup_insert_eq.
  - rewrite lookup_insert_ne by congruence. rewrite lookup_insert_ne by congruence.
    now rewrite lookup_empty.
Qed.

Section Chain2.
Context `{JsRuntime}.

Lemma usable_record_shape (v : JsValue) (r : MetaData) :
  usable_record v = Some r ->
  name r <> "" /\ (exists raw, name r = trim raw) /\
  (truthy (avatarLink r) = true \/ avatarLink r = JString "").
Proof.
  unfold usable_record. destruct v as [| | | | | |fields]; try discriminate.
  destruct (lookup_field "name" fields) as [[| | | |raw| |]|]; try discriminate.
  destruct (String.eqb_spec (trim raw) ""); [discriminate|].
  intros [= <-]. cbn [name avatarLink]. split; [assumption|]. split; [eauto|].
  destruct (lookup_field "avatarLink" fields) as [link|]; [|now right].
  destruct (truthy link) eqn:T; [now left | now right].
Qed.

Lemma primary_record_shape (env : Env) (id : string) (r : MetaData) :
  primary_record env id = Some r ->
  name r <> "" /\ (exists raw, name r = trim raw) /\
  (truthy (avatarLink r) = true \/ avatarLink r = JString "").
Proof.
  unfold primary_record.
  destruct (latency (net env (primary_url id)) <? API_TIMEOUT CONFIG)%Z; [|discriminate].
  destruct (success_body _) as [[| | | | | |fields]|]; try discriminate.
  destruct (lookup_field "data" fields); [apply usable_record_shape | discriminate].
Qed.

Lemma backup_record_shape (env : Env) (id : string) (r : MetaData) :
  backup_record env id = Some r ->
  name r <> "" /\ (exists raw, name r = trim raw) /\
  (truthy (avatarLink r) = true \/ avatarLink r = JString "").
Proof.
  unfold backup_record. destruct (success_body _); [apply usable_record_shape | discriminate].
Qed.

(** X10. [fetchMetaData] asks the primary source first and the backup
    source only when the primary gave no usable record: the run is the one
    request [API_URL?id=<id>], or that request followed by
    [BACKUP_URL/<id>.json], and never anything else (no cache access);
    neither the requests nor the record depend on the timers. *)
Theorem fallback_order (env : Env) (id : string) (t : Timers) :
  (events (fetchMetaData env id t) =
     [EvFetch (API_URL CONFIG +:+ "?id=" +:+ id)] \/
   events (fetchMetaData env id t) =
     [EvFetch (API_URL CONFIG +:+ "?id=" +:+ id);
      EvFetch (BACKUP_URL CONFIG +:+ "/" +:+ id +:+ ".json")] /\
   primary_record env id = None) /\
  (forall t', events (fetchMetaData env id t') = events (fetchMetaData env id t) /\
              completion (fetchMetaData env id t') = completion (fetchMetaData env id t)).
Proof.
  split.
  - rewrite fetchMetaData_run. cbn [events].
    destruct (primary_record env id); [now left | now right].
  - intros t'. now rewrite !fetchMetaData_run.
Qed.

(** X11. The record that [fetchMetaData] returns has an avatar link that
    is truthy or the empty string (never [null] or [undefined]) and a name
    that is the result of [trim]; a record with an empty name is the empty
    record [{ name: '', avatarLink: '' }]. *)
Theorem fetchMetaData_record (env : Env) (id : string) (t : Timers) (r : MetaData) :
  completion (fetchMetaData env id t) = Returns r ->
  (truthy (avatarLink r) = true \/ avatarLink r = JString "") /\
  (name r = "" -> r = {| name := ""; avatarLink := JString "" |}) /\
  (name r <> "" -> exists raw, name r = trim raw).
Proof.
  rewrite fetchMetaData_run. cbn [completion]. intros [= <-]. unfold resolved_record.
  destruct (primary_record env id) as [p|] eqn:Ep.
  { destruct (primary_record_shape _ _ _ Ep) as (Hn & Ht & Hl).
    split; [exact Hl|]. split; [contradiction | now intros _]. }
  destruct (backup_record env id) as [b|] eqn:Eb.
  { destruct (backup_record_shape _ _ _ Eb) as (Hn & Ht & Hl).
    split; [exact Hl|]. split; [contradiction | now intros _]. }
  split; [now right|]. split; [reflexivity | now intros []].
Qed.

(** X12. When the primary request resolves, or runs into the timeout, the
    timer armed for it is gone when [fetchMetaData] completes: the armed
    timers are those armed before the call. *)
Theorem timer_released (env : Env) (id : string) (t : Timers) :
  rejected_in_time (net env (primary_url id)) = false ->
  armed t !! next_timer t = None ->
  armed (after (fetchMetaData env id t)) = armed t.
Proof.
  intros E Hfresh. rewrite fetchMetaData_run. cbn [after].
  unfold timers_after_primary. rewrite E. cbn [armed].
  now apply delete_insert_id.
Qed.

End Chain2.

(** ** The handler *)

Section Handler2.
Context `{JsRuntime}.

(** X13. A crawler request for [/<text>-<last>] whose last part is empty
    or not alphanumeric gets, without any fetch or cache access, a 200 page
    whose title is the placeholder [Không tìm thấy] and whose image is
    empty. *)
Theorem not_found_page (request : Request) (env : Env) (t : Timers)
    (text last : string) :
  from_crawler request = true ->
  url_pathname request = "/" +:+ text +:+ "-" +:+ last ->
  has_char "-" last = false -> test_alnum last = false ->
  exists resp,
    fetch request env t = {| after := t; events := []; completion := Returns resp |} /\
    status resp = 200%Z /\
    title_of (body resp) = Some "Không tìm thấy" /\
    meta_content "og:title" (body resp) = Some "Không tìm thấy" /\
    meta_content "og:image" (body resp) = Some "".
Proof.
  intros Hc Hp Hh Ht.
  assert (Hr : root_path request = false)
    by (unfold root_path; rewrite Hp; apply content_path_not_root).
  assert (Hid : extractId (slice (url_pathname request) 1) = None).
  { rewrite Hp. change ("/" +:+ text +:+ "-" +:+ last)
      with (String "/" (text +:+ String "-" last)).
    now rewrite slice_first, (extractId_split _ _ Hh), Ht. }
  rewrite (fetch_no_id request env t Hc Hr Hid).
  eexists. split; [reflexivity|]. repeat split; reflexivity.
Qed.

(** X14. With a cache bound, a read that fails and a read that gives a
    falsy value are misses: the handler goes on to the fallback chain,
    writes the record back when its name is non-empty, and completes as
    rendering the record does. *)
Theorem cache_read_failure_is_miss (request : Request) (env : Env) (t : Timers)
    (id : string) (kv : KVNamespace) (r : MetaData) :
  from_crawler request = true -> root_path request = false ->
  extractId (slice (url_pathname request) 1) = Some id ->
  META_CACHE env = Some kv ->
  (kv_get kv ("meta:" +:+ id) = KvReadFails \/
   exists v, kv_get kv ("meta:" +:+ id) = KvJson v /\ truthy v = false) ->
  completion (fetchMetaData env id t) = Returns r ->
  fetch request env t =
    {| after := after (fetchMetaData env id t);
       events :=
         EvKvGet ("meta:" +:+ id) ::
         events (fetchMetaData env id t) ++
         (if String.eqb (name r) "" then []
          else [EvKvPut ("meta:" +:+ id) (JSON_stringify (MetaData_object r)) 86400%Z]);
       completion := createMetaResponse (JString (name r)) (avatarLink r) |}.
Proof.
  intros Hc Hr Hid Hkv Hget Hchain.
  rewrite (fetch_with_id request env id t Hc Hr Hid), serve_run.
  assert (Hmiss : cached_page env id = None).
  { unfold cached_page. rewrite Hkv.
    destruct Hget as [->|(v & -> & ->)]; reflexivity. }
  rewrite Hmiss, Hkv. cbv zeta.
  rewrite fetchMetaData_run in *. cbn [completion after events] in *.
  injection Hchain as <-. reflexivity.
Qed.

(** X15. A truthy cached value that is not an object (a number, a string,
    [true], an array) counts as a hit: the handler serves the page with
    empty title and image and asks no source. *)
Theorem cached_non_object (request : Request) (env : Env) (t : Timers)
    (id : string) (kv : KVNamespace) (cached : JsValue) :
  from_crawler request = true -> root_path request = false ->
  extractId (slice (url_pathname request) 1) = Some id ->
  META_CACHE env = Some kv ->
  kv_get kv ("meta:" +:+ id) = KvJson cached ->
  truthy cached = true -> (forall fields, cached <> JObject fields) ->
  fetch request env t =
    {| after := t;
       events := [EvKvGet ("meta:" +:+ id)];
       completion := Returns {| status := 200; headers := meta_headers;
                                body := html_document "" "" |} |}.
Proof.
  intros Hc Hr Hid Hkv Hget Ht Hobj.
  rewrite (fetch_with_id request env id t Hc Hr Hid), serve_run.
  unfold cached_page. rewrite Hkv, Hget, Ht.
  destruct cached as [| | b | num | s | items | fields]; try discriminate Ht;
    try reflexivity.
  now destruct (Hobj fields).
Qed.

(** X16. What a miss writes back is served unchanged: when a request that
    missed the cache returned a page for the record [r], a request for the
    same identifier that reads the object [{ name, avatarLink }] of [r]
    from the cache returns the same page, with that one read and no
    fetch. *)
Theorem written_record_served (request : Request) (env env' : Env) (t t' : Timers)
    (id : string) (kv' : KVNamespace) (r : MetaData) (resp : Response) :
  from_crawler request = true -> root_path request = false ->
  extractId (slice (url_pathname request) 1) = Some id ->
  completion (cache_lookup env id t) = Returns None ->
  completion (fetchMetaData env id t) = Returns r ->
  completion (fetch request env t) = Returns resp ->
  META_CACHE env' = Some kv' ->
  kv_get kv' ("meta:" +:+ id) = KvJson (MetaData_object r) ->
  fetch request env' t' =
    {| after := t'; events := [EvKvGet ("meta:" +:+ id)]; completion := Returns resp |}.
Proof.
  intros Hc Hr Hid Hmiss Hchain Hresp Hkv Hget.
  rewrite cache_lookup_run in Hmiss. cbn [completion] in Hmiss. injection Hmiss as Hmiss.
  rewrite fetchMetaData_run in Hchain. cbn [completion] in Hchain. injection Hchain as <-.
  rewrite (fetch_with_id request env id t Hc Hr Hid), serve_run, Hmiss in Hresp.
  cbv zeta in Hresp. cbn [completion] in Hresp.
  rewrite (fetch_with_id request env' id t' Hc Hr Hid), serve_run.
  unfold cached_page. rewrite Hkv, Hget. unfold MetaData_object.
  cbn [truthy get_prop lookup_field String.eqb Ascii.eqb Bool.eqb obind default
       from_option Datatypes.id].
  now rewrite Hresp.
Qed.

(** X17. An ordinary visitor whose hostname names a member that the
    object literal [DOMAIN_MAP] inherits ([constructor], [__proto__], ...)
    gets no response: [Response.redirect] throws a TypeError. Every other
    visitor is redirected to [https://anhus.livextop.com] when the hostname
    is [tuneblast.us] and to [https://topnewsus.feji.io] otherwise, with
    the path and the query string appended as they came. *)
Theorem redirect_destinations (request : Request) (env : Env) (t : Timers) :
  from_crawler request = false ->
  completion (fetch request env t) =
    match Object_prototype !! url_hostname request with
    | Some _ => Throws TypeError
    | None =>
        Returns {| status := 301;
                   headers :=
                     [("Location",
                       (if String.eqb (url_hostname request) "tuneblast.us"
                        then "https://anhus.livextop.com"
                        else "https://topnewsus.feji.io") +:+
                       url_pathname request +:+ url_search request)];
                   body := "" |}
    end.
Proof.
  intros Hv. rewrite (fetch_visitor request env t Hv). cbn [completion].
  now rewrite DOMAIN_MAP_lookup.
Qed.

(** X18. End to end: a crawler request for [/<text>-<id>] with an
    alphanumeric [<id>], a cache miss and a record for [<id>] whose avatar
    link is a string gets a 200 page from which decoding the title,
    [og:title] and [og:image] gives back the name and the link of the
    record. *)
Theorem crawler_end_to_end (request : Request) (env : Env) (t : Timers)
    (text id n link : string) :
  from_crawler request = true ->
  url_pathname request = "/" +:+ text +:+ "-" +:+ id ->
  test_alnum id = true ->
  completion (cache_lookup env id t) = Returns None ->
  completion (fetchMetaData env id t) =
    Returns {| name := n; avatarLink := JString link |} ->
  exists resp,
    completion (fetch request env t) = Returns resp /\
    status resp = 200%Z /\
    unescape <$> title_of (body resp) = Some n /\
    unescape <$> meta_content "og:title" (body resp) = Some n /\
    unescape <$> meta_content "og:image" (body resp) = Some link.
Proof.
  intros Hc Hp Ht Hmiss Hchain.
  assert (Hr : root_path request = false)
    by (unfold root_path; rewrite Hp; apply content_path_not_root).
  assert (Hid : extractId (slice (url_pathname request) 1) = Some id).
  { rewrite Hp. change ("/" +:+ text +:+ "-" +:+ id)
      with (String "/" (text +:+ String "-" id)).
    now rewrite slice_first, (extractId_split _ _ (test_alnum_no_hyphen _ Ht)), Ht. }
  rewrite cache_lookup_run in Hmiss. cbn [completion] in Hmiss. injection Hmiss as Hmiss.
  rewrite fetchMetaData_run in Hchain. cbn [completion] in Hchain.
  injection Hchain as Hrec.
  rewrite (fetch_with_id request env id t Hc Hr Hid), serve_run, Hmiss.
  cbv zeta. cbn [completion]. rewrite Hrec. cbn [name avatarLink].
  rewrite createMetaResponse_strings. eexists. split; [reflexivity|]. cbn [status body].
  rewrite title_of_page, og_title_of_page, og_image_of_page
    by (apply escaped_no_lt || apply escaped_no_dq).
  cbn [fmap option_fmap option_map]. rewrite !unescape_escape. repeat split.
Qed.

End Handler2.

(** ** The further properties at concrete requests *)

Lemma fetchMetaData_record_witness :
  completion (@fetchMetaData ascii_runtime env_primary "abc123" idle) =
    Returns {| name := "Win"; avatarLink := JString "http://x/img.png" |} /\
  (truthy (JString "http://x/img.png") = true \/
   JString "http://x/img.png" = JString "").
Proof.
  split; [reflexivity|].
  exact (proj1 (@fetchMetaData_record ascii_runtime env_primary "abc123" idle
                  {| name := "Win"; avatarLink := JString "http://x/img.png" |}
                  eq_refl)).
Defined.

Lemma timer_released_witness :
  rejected_in_time (net env_primary (primary_url "abc123")) = false /\
  armed idle !! next_timer idle = None /\
  armed (after (@fetchMetaData ascii_runtime env_primary "abc123" idle)) = armed idle.
Proof.
  split; [reflexivity|]. split; [reflexivity|].
  apply (@timer_released ascii_runtime env_primary "abc123" idle); reflexivity.
Defined.

Lemma not_found_page_witness :
  @from_crawler ascii_runtime (crawler_request "/title-ab_12") = true /\
  exists resp,
    @fetch ascii_runtime (crawler_request "/title-ab_12") env_primary idle =
      {| after := idle; events := []; completion := Returns resp |} /\
    title_of (body resp) = Some "Không tìm thấy".
Proof.
  split; [reflexivity|].
  destruct (@not_found_page ascii_runtime (crawler_request "/title-ab_12")
              env_primary idle "title" "ab_12")
    as (resp & Hrun & _ & Htitle & _); try reflexivity.
  exists resp. split; [exact Hrun | exact Htitle].
Defined.

Lemma cache_read_failure_is_miss_witness :
  META_CACHE env_broken_cache = Some kv_broken /\
  kv_get kv_broken "meta:abc123" = KvReadFails /\
  events (@fetch ascii_runtime (crawler_request "/breaking-news-abc123")
            env_broken_cache idle) =
    [EvKvGet "meta:abc123";
     EvFetch "https://apisport.vbonews.com/News/news-detailbasic?id=abc123";
     EvKvPut "meta:abc123"
       (stringify (MetaData_object
                     {| name := "Win"; avatarLink := JString "http://x/img.png" |}))
       86400%Z].
Proof.
  split; [reflexivity|]. split; [reflexivity|].
  rewrite (@cache_read_failure_is_miss ascii_runtime
             (crawler_request "/breaking-news-abc123") env_broken_cache idle "abc123"
             kv_broken {| name := "Win"; avatarLink := JString "http://x/img.png" |});
    try reflexivity.
  now left.
Defined.

Lemma cached_non_object_witness :
  truthy (JNumber "5") = true /\
  @fetch ascii_runtime (crawler_request "/breaking-news-abc123")
    env_cached_number idle =
    {| after := idle;
       events := [EvKvGet "meta:abc123"];
       completion := Returns {| status := 200; headers := meta_headers;
                                body := html_document "" "" |} |}.
Proof.
  split; [reflexivity|].
  apply (@cached_non_object ascii_runtime
           (crawler_request "/breaking-news-abc123") env_cached_number idle "abc123"
           (kv_holding "meta:abc123" (JNumber "5")) (JNumber "5"));
    try reflexivity.
  discriminate.
Defined.

Lemma written_record_served_witness :
  completion (@cache_lookup env_primary "abc123" idle) = Returns None /\
  events (@fetch ascii_runtime (crawler_request "/breaking-news-abc123")
            env_written_back idle) = [EvKvGet "meta:abc123"] /\
  completion (@fetch ascii_runtime (crawler_request "/breaking-news-abc123")
                env_written_back idle) =
  completion (@fetch ascii_runtime (crawler_request "/breaking-news-abc123")
                env_primary idle).
Proof.
  split; [reflexivity|].
  rewrite (@written_record_served ascii_runtime
             (crawler_request "/breaking-news-abc123") env_primary env_written_back
             idle idle "abc123"
             (kv_holding "meta:abc123"
                (MetaData_object {| name := "Win";
                                    avatarLink := JString "http://x/img.png" |}))
             {| name := "Win"; avatarLink := JString "http://x/img.png" |}
             {| status := 200; headers := meta_headers;
                body := html_document "Win" "http://x/img.png" |});
    try reflexivity.
  split; reflexivity.
Defined.

Lemma redirect_destinations_witness :
  @from_crawler ascii_runtime (visitor_request "example.org" "/a" "?b=1") = false /\
  completion (@fetch ascii_runtime (visitor_request "example.org" "/a" "?b=1")
                env_offline idle) =
    Returns {| status := 301;
               headers := [("Location", "https://topnewsus.feji.io/a?b=1")];
               body := "" |} /\
  @from_crawler ascii_runtime (visitor_request "__proto__" "/a" "?b=1") = false /\
  completion (@fetch ascii_runtime (visitor_request "__proto__" "/a" "?b=1")
                env_offline idle) = Throws TypeError.
Proof.
  split; [reflexivity|]. split.
  - rewrite (@redirect_destinations ascii_runtime
               (visitor_request "example.org" "/a" "?b=1") env_offline idle);
      reflexivity.
  - split; [reflexivity|].
    rewrite (@redirect_destinations ascii_runtime
               (visitor_request "__proto__" "/a" "?b=1") env_offline idle);
      reflexivity.
Defined.

Lemma crawler_end_to_end_witness :
  @from_crawler ascii_runtime (crawler_request "/breaking-news-abc123") = true /\
  exists resp,
    completion (@fetch ascii_runtime (crawler_request "/breaking-news-abc123")
                  env_primary idle) = Returns resp /\
    unescape <$> meta_content "og:title" (body resp) = Some "Win" /\
    unescape <$> meta_content "og:image" (body resp) = Some "http://x/img.png".
Proof.
  split; [reflexivity|].
  destruct (@crawler_end_to_end ascii_runtime
              (crawler_request "/breaking-news-abc123") env_primary idle
              "breaking-news" "abc123" "Win" "http://x/img.png")
    as (resp & Hrun & _ & _ & Ht & Hi); try reflexivity.
  exists resp. split; [exact Hrun|]. split; [exact Ht | exact Hi].
Defined.

(** ** Bounds on what a crawler request costs *)

Section Cost.
Context `{JsRuntime}.

(** X19. Whatever the path, the cache and the sources do, the run for a
    crawler request is at most one cache read, then at most two fetches,
    then at most one cache write, in that order. *)
Theorem crawler_io_bound (request : Request) (env : Env) (t : Timers) :
  from_crawler request = true ->
  exists reads fetches writes : list Event,
    events (fetch request env t) = (reads ++ fetches ++ writes)%list /\
    (reads = [] \/ exists key, reads = [EvKvGet key]) /\
    forallb is_fetch fetches = true /\ (length fetches <= 2)%nat /\
    (writes = [] \/ exists key value ttl, writes = [EvKvPut key value ttl]).
Proof.
  intros Hc. destruct (root_path request) eqn:Hr.
  { rewrite (fetch_root request env t Hc Hr). exists [], [], []. cbn. auto 10. }
  destruct (extractId (slice (url_pathname request) 1)) as [id|] eqn:Hid.
  2:{ rewrite (fetch_no_id request env t Hc Hr Hid). exists [], [], []. cbn. auto 10. }
  rewrite (fetch_with_id request env id t Hc Hr Hid), serve_run.
  destruct (cached_page env id) as [page|].
  { exists [EvKvGet ("meta:" +:+ id)], [], []. cbn. eauto 10. }
  cbv zeta. cbn [events]. rewrite fetchMetaData_run. cbn [events].
  do 3 eexists. split; [reflexivity|]. repeat split.
  - destruct (META_CACHE env); eauto.
  - now destruct (primary_record env id).
  - destruct (primary_record env id); cbn; lia.
  - destruct (META_CACHE env); [|now left].
    destruct (String.eqb (name (resolved_record env id)) ""); eauto 10.
Qed.

(** X20. A cached value whose rendering throws is a miss as well: the
    [return] of the cache block sits inside its [try], so the handler goes
    on to the fallback chain. *)
Theorem cached_render_failure_is_miss (request : Request) (env : Env) (t : Timers)
    (id : string) (kv : KVNamespace) (cached n a : JsValue) (e : JsError) :
  from_crawler request = true -> root_path request = false ->
  extractId (slice (url_pathname request) 1) = Some id ->
  META_CACHE env = Some kv ->
  kv_get kv ("meta:" +:+ id) = KvJson cached -> truthy cached = true ->
  get_prop cached "name" = Returns n -> get_prop cached "avatarLink" = Returns a ->
  createMetaResponse n a = Throws e ->
  completion (cache_lookup env id t) = Returns None /\
  events (fetch request env t) =
    EvKvGet ("meta:" +:+ id) ::
    events (fetchMetaData env id t) ++
    events (cache_store env id (resolved_record env id) t).
Proof.
  intros Hc Hr Hid Hkv Hget Ht Hn Ha He.
  assert (Hmiss : cached_page env id = None).
  { unfold cached_page. rewrite Hkv, Hget, Ht, Hn, Ha. cbn [obind]. now rewrite He. }
  rewrite cache_lookup_run. cbn [completion]. rewrite Hmiss. split; [reflexivity|].
  rewrite (fetch_with_id request env id t Hc Hr Hid), serve_run, Hmiss.
  cbv zeta. cbn [events]. rewrite cache_store_run, Hkv. reflexivity.
Qed.

End Cost.

Lemma crawler_io_bound_witness :
  @from_crawler ascii_runtime (crawler_request "/breaking-news-abc123") = true /\
  exists reads fetches writes : list Event,
    events (@fetch ascii_runtime (crawler_request "/breaking-news-abc123")
              env_primary idle) = (reads ++ fetches ++ writes)%list /\
    (length fetches <= 2)%nat.
Proof.
  split; [reflexivity|].
  destruct (@crawler_io_bound ascii_runtime
              (crawler_request "/breaking-news-abc123") env_primary idle)
    as (reads & fetches & writes & Hev & _ & _ & Hlen & _); [reflexivity|].
  exists reads, fetches, writes. split; [exact Hev | exact Hlen].
Defined.

Lemma cached_render_failure_is_miss_witness :
  createMetaResponse (JObject [("toString", JNumber "1")]) (JString "") =
    Throws TypeError /\
  events (@fetch ascii_runtime (crawler_request "/breaking-news-abc123")
            env_cached_odd idle) =
    EvKvGet "meta:abc123" ::
    events (@fetchMetaData ascii_runtime env_cached_odd "abc123" idle) ++
    events (@cache_store ascii_runtime env_cached_odd "abc123"
              (@resolved_record ascii_runtime env_cached_odd "abc123") idle).
Proof.
  split; [reflexivity|].
  apply (@cached_render_failure_is_miss ascii_runtime
           (crawler_request "/breaking-news-abc123") env_cached_odd idle "abc123"
           (kv_holding "meta:abc123"
              (JObject [("name", JObject [("toString", JNumber "1")]);
                        ("avatarLink", JString "")]))
           (JObject [("name", JObject [("toString", JNumber "1")]);
                     ("avatarLink", JString "")])
           (JObject [("toString", JNumber "1")]) (JString "") TypeError);
    reflexivity.
Defined.
